(** * sentiment-backend: the YouTube comment sentiment API ([main.py])

    A shallow embedding of the three functions behind [GET /analizar/]
    ([obtener_info_video], [obtener_comentarios_youtube],
    [analizar_sentimientos_vader]) and of the handler [analizar_video],
    followed by the properties the specification states about them.

    Modelling choices.
    - Python [float] is IEEE binary64: scores are primitive floats and the
      comparisons with the thresholds are [PrimFloat.leb].
    - Python [int] is [Z]; [str] is [string]; a list is [list].
    - The [counts] dict is a [gmap string Z]; [counts[k] += 1] raises
      [KeyError] on a missing key, as in Python.
    - The YouTube client and the VADER analyzer are outside the program: they
      are the fields of a [Service], over an arbitrary state [W] of the
      outside world.  A call to either is recorded in the event log of the
      world, with the message of the exception it raised, if any.
    - Functions are written in a state-and-exception monad [M] over the world;
      the [while] loop of the comment fetcher takes fuel and yields
      [OutOfFuel] when the fuel does not cover the iterations it needs. *)

From Stdlib Require Import ZArith Lia List Floats.
From stdpp Require Import base option list strings gmap.

Set Warnings "-inexact-float".
Local Open Scope string_scope.
Local Open Scope list_scope.
Local Open Scope Z_scope.

(** ** Values exchanged with the YouTube Data API

    A response is a JSON object; a key that the code reads may be absent,
    which is [None] here. *)

Module Video.
Record thumbnail := { url : option string }.
Record thumbnails := { medium : option thumbnail }.
Record snippet := {
  title : option string;
  channelTitle : option string;
  thumbnails_ : option thumbnails;
  publishedAt : option string }.
Record item := { snippet_ : option snippet }.
Record response := { items : option (list item) }.
(** [youtube.videos().list(part=..., id=...)] *)
Record request := { part : string; id : string }.
End Video.

Module Thread.
Record comment_snippet := { textDisplay : option string }.
Record comment := { snippet : option comment_snippet }.
Record thread_snippet := { topLevelComment : option comment }.
Record item := { snippet_ : option thread_snippet }.
Record response := {
  items : option (list item);
  nextPageToken : option string }.
(** [youtube.commentThreads().list(part=..., videoId=..., maxResults=...,
    textFormat=..., pageToken=...)] *)
Record request := {
  part : string;
  videoId : string;
  maxResults : Z;
  textFormat : string;
  pageToken : option string }.
End Thread.

(** The dict returned by [analyzer.polarity_scores]. *)
Record scores := { neg : float; neu : float; pos : float; compound : float }.

(** ** Exceptions *)

(** What a library call or a subscript can raise inside a [try] block; all of
    them are instances of [Exception]. *)
Inductive exception :=
| KeyError (key : string)
| IndexError
| LibraryError (msg : string).

(** [str(e)] *)
Definition str (e : exception) : string :=
  match e with
  | KeyError key => "'" +:+ key +:+ "'"
  | IndexError => "list index out of range"
  | LibraryError msg => msg
  end.

(** What leaves a function of [main.py]: an [HTTPException] raised by the
    code, or an exception nothing caught. *)
Inductive exn :=
| HTTPException (status_code : Z) (detail : string)
| Uncaught (e : exception).

(** ** The outside world *)

Inductive reply (A : Type) :=
| Return (a : A)
| Raise (msg : string).
Arguments Return {A} a.
Arguments Raise {A} msg.

Record Service (W : Type) := {
  (** [build(serviceName, version, developerKey=...)] *)
  build : string -> string -> option string -> W -> reply unit * W;
  (** [youtube.videos().list(...).execute()] *)
  videos_list : Video.request -> W -> reply Video.response * W;
  (** [youtube.commentThreads().list(...).execute()] *)
  commentThreads_list : Thread.request -> W -> reply Thread.response * W;
  (** [analyzer.polarity_scores(text)]; the scorer has no failure path and
      keeps no state *)
  polarity_scores : string -> scores }.
Arguments build {W}.
Arguments videos_list {W}.
Arguments commentThreads_list {W}.
Arguments polarity_scores {W}.

Inductive api_call :=
| Build (serviceName version : string) (developerKey : option string)
| VideosList (req : Video.request)
| CommentThreadsList (req : Thread.request)
| PolarityScores (text : string).

Inductive event :=
| Called (c : api_call) (raised : option string)
| Printed (line : string).

Record world (W : Type) := { ext : W; log : list event }.
Arguments ext {W}.
Arguments log {W}.

Definition record {W} (e : event) (w : world W) : world W :=
  {| ext := ext w; log := log w ++ [e] |}.

(** ** The monad *)

Inductive outcome (E A : Type) :=
| Val (a : A)
| Exc (e : E)
| OutOfFuel.
Arguments Val {E A} a.
Arguments Exc {E A} e.
Arguments OutOfFuel {E A}.

Definition M (W E A : Type) : Type := world W -> outcome E A * world W.

Definition ret {W E A} (a : A) : M W E A := fun w => (Val a, w).

Definition raise {W E A} (e : E) : M W E A := fun w => (Exc e, w).

Definition bind {W E A B} (m : M W E A) (k : A -> M W E B) : M W E B :=
  fun w =>
    match m w with
    | (Val a, w') => k a w'
    | (Exc e, w') => (Exc e, w')
    | (OutOfFuel, w') => (OutOfFuel, w')
    end.

Notation "'do' x <- m ; k" := (bind m (fun x => k))
  (at level 10, x name, m at level 100, k at level 200).
Notation "'do' ' pat <- m ; k" :=
  (bind m (fun x => match x with pat => k end))
  (at level 10, pat pattern, m at level 100, k at level 200).
Notation "'run' m ; k" := (bind m (fun _ => k))
  (at level 10, m at level 100, k at level 200).

(** [try: body except Exception as e: handler e] *)
Definition try_except {W E1 E2 A}
    (body : M W E1 A) (handler : E1 -> M W E2 A) : M W E2 A :=
  fun w =>
    match body w with
    | (Val a, w') => (Val a, w')
    | (Exc e, w') => handler e w'
    | (OutOfFuel, w') => (OutOfFuel, w')
    end.

(** [print(line)] *)
Definition print {W E} (line : string) : M W E unit :=
  fun w => (Val tt, record (Printed line) w).

(** A call to the client library: the reply comes from the service, the call
    and its failure go to the log. *)
Definition call {W A} (c : api_call) (f : W -> reply A * W)
  : M W exception A :=
  fun w =>
    match f (ext w) with
    | (Return a, x) =>
        (Val a, {| ext := x; log := log w ++ [Called c None] |})
    | (Raise msg, x) =>
        (Exc (LibraryError msg),
         {| ext := x; log := log w ++ [Called c (Some msg)] |})
    end.

(** [for x in l: s = body s x] *)
Fixpoint for_each {W E A S} (body : S -> A -> M W E S) (s : S) (l : list A)
  : M W E S :=
  match l with
  | [] => ret s
  | x :: l' => do s' <- body s x; for_each body s' l'
  end.

(** ** Python on dicts and optional values *)

(** [d[key]] on a JSON object *)
Definition getitem {W A} (key : string) (field : option A)
  : M W exception A :=
  match field with
  | Some v => ret v
  | None => raise (KeyError key)
  end.

(** [d.get(key, default)] *)
Definition get {A} (field : option A) (dflt : A) : A :=
  match field with
  | Some v => v
  | None => dflt
  end.

(** Truth value of [d.get(key)] when the value is a string: [None] and the
    empty string are false. *)
Definition truthy_str (s : option string) : bool :=
  match s with
  | None => false
  | Some "" => false
  | Some _ => true
  end.

(** Truth value of [d.get(key)] when the value is a list. *)
Definition truthy_list {A} (l : option (list A)) : bool :=
  match l with
  | None => false
  | Some [] => false
  | Some _ => true
  end.

(** [len(l)] *)
Definition len {A} (l : list A) : Z := Z.of_nat (length l).

(** [counts[key] += 1] *)
Definition increment {W} (counts : gmap string Z) (key : string)
  : M W exn (gmap string Z) :=
  match counts !! key with
  | Some n => ret (<[key := n + 1]> counts)
  | None => raise (Uncaught (KeyError key))
  end.

(** [l[0]] *)
Definition first_item {W A} (l : list A) : M W exception A :=
  match l with
  | x :: _ => ret x
  | [] => raise IndexError
  end.

(** ** The program *)

(** The dict built by [obtener_info_video]. *)
Record VideoInfo := {
  title : string;
  channel : string;
  thumbnail : string;
  published_at : string }.

(** An element of [classified_list]. *)
Record ClassifiedComment := { comentario : string; sentimiento : string }.

(** The dict returned by [analizar_video]. *)
Record Respuesta := {
  video_id : string;
  video_info : option VideoInfo;
  total_comentarios : Z;
  sentimientos : gmap string Z;
  lista_comentarios : list ClassifiedComment }.

Section Program.
Context {W : Type}.
(** The client library and the analyzer ([analyzer =
    SentimentIntensityAnalyzer()]). *)
Context (lib : Service W).
(** [API_KEY = os.environ.get("YOUTUBE_API_KEY")] *)
Context (API_KEY : option string).

(** [youtube = build("youtube", "v3", developerKey=API_KEY)] *)
Definition build_youtube : M W exception unit :=
  call (Build "youtube" "v3" API_KEY) (build lib "youtube" "v3" API_KEY).

Definition obtener_info_video (video_id : string)
  : M W exn (option VideoInfo) :=
  if negb (truthy_str API_KEY) then ret None
  else
    try_except
      (run build_youtube;
       let request := {| Video.part := "snippet"; Video.id := video_id |} in
       do response <- call (VideosList request) (videos_list lib request);
       if negb (truthy_list (Video.items response)) then ret None
       else
         do items <- getitem "items" (Video.items response);
         do item <- first_item items;
         do video_data <- getitem "snippet" (Video.snippet_ item);
         ret (Some {|
           title := get (Video.title video_data) "Título no disponible";
           channel :=
             get (Video.channelTitle video_data) "Canal no disponible";
           thumbnail :=
             get (Video.url
                    (get (Video.medium
                            (get (Video.thumbnails_ video_data)
                                 {| Video.medium := None |}))
                         {| Video.url := None |}))
                 "";
           published_at := get (Video.publishedAt video_data) "" |}))
      (fun e =>
         run print ("Error al obtener info del video: " +:+ str e);
         ret None).

(** [item['snippet']['topLevelComment']['snippet']['textDisplay']] *)
Definition textDisplay_of (item : Thread.item) : M W exception string :=
  do a <- getitem "snippet" (Thread.snippet_ item);
  do b <- getitem "topLevelComment" (Thread.topLevelComment a);
  do c <- getitem "snippet" (Thread.snippet b);
  getitem "textDisplay" (Thread.textDisplay c).

(** The body of [for item in response.get('items', [])]. *)
Definition append_comment (comentarios : list string) (item : Thread.item)
  : M W exception (list string) :=
  do comment <- textDisplay_of item;
  ret (comentarios ++ [comment]).

(** The [while len(comentarios) < 100] loop; one unit of fuel per
    iteration. *)
Fixpoint paginar (fuel : nat) (video_id : string)
    (comentarios : list string) (next_page_token : option string)
  : M W exception (list string) :=
  if len comentarios <? 100 then
    match fuel with
    | O => fun w => (OutOfFuel, w)
    | S fuel' =>
        let request := {|
          Thread.part := "snippet";
          Thread.videoId := video_id;
          Thread.maxResults := 100;
          Thread.textFormat := "plainText";
          Thread.pageToken := next_page_token |} in
        do response <-
          call (CommentThreadsList request)
               (commentThreads_list lib request);
        do comentarios <-
          for_each append_comment comentarios
                   (get (Thread.items response) []);
        let next_page_token := Thread.nextPageToken response in
        if negb (truthy_str next_page_token) then ret comentarios
        else paginar fuel' video_id comentarios next_page_token
    end
  else ret comentarios.

Definition obtener_comentarios_youtube (fuel : nat) (video_id : string)
  : M W exn (list string) :=
  if negb (truthy_str API_KEY) then
    raise (HTTPException 503
      "Servicio no disponible: Falta configuración de API Key en el servidor.")
  else
    try_except
      (run build_youtube;
       do comentarios <- paginar fuel video_id [] None;
       ret (take 100 comentarios))
      (fun e =>
         run print ("Error al llamar a la API de YouTube: " +:+ str e);
         raise (HTTPException 500
           ("Error al contactar la API de YouTube: " +:+ str e))).

(** [scores = analyzer.polarity_scores(comentario)] *)
Definition analyzer_polarity_scores {E} (text : string) : M W E scores :=
  fun w =>
    (Val (polarity_scores lib text),
     record (Called (PolarityScores text) None) w).

(** [{"Positivo": 0, "Neutral": 0, "Negativo": 0}] *)
Definition counts_inicial : gmap string Z :=
  <["Negativo" := 0]> (<["Neutral" := 0]> (<["Positivo" := 0]> ∅)).

(** The body of [for comentario in lista_comentarios]. *)
Definition clasificar
    (st : gmap string Z * list ClassifiedComment) (comentario : string)
  : M W exn (gmap string Z * list ClassifiedComment) :=
  let '(counts, classified_list) := st in
  do scores <- analyzer_polarity_scores comentario;
  let compound_score := compound scores in
  do '(sentimiento, counts) <-
    (if (0.05 <=? compound_score)%float then
       do counts <- increment counts "Positivo";
       ret ("Positivo", counts)
     else if (compound_score <=? -0.05)%float then
       do counts <- increment counts "Negativo";
       ret ("Negativo", counts)
     else
       do counts <- increment counts "Neutral";
       ret ("Neutral", counts));
  ret (counts,
       classified_list ++
         [{| comentario := comentario; sentimiento := sentimiento |}]).

Definition analizar_sentimientos_vader (lista_comentarios : list string)
  : M W exn (gmap string Z * list ClassifiedComment) :=
  for_each clasificar (counts_inicial, []) lista_comentarios.

Definition analizar_video (fuel : nat) (video_id : string)
  : M W exn Respuesta :=
  do video_info <- obtener_info_video video_id;
  do comentarios <- obtener_comentarios_youtube fuel video_id;
  match comentarios with
  | [] =>
      raise (HTTPException 404
        "No se encontraron comentarios para este video.")
  | _ =>
      do '(counts, classified_list) <-
        analizar_sentimientos_vader comentarios;
      ret {| video_id := video_id;
             video_info := video_info;
             total_comentarios := len comentarios;
             sentimientos := counts;
             lista_comentarios := classified_list |}
  end.
End Program.

(** ** Concrete services

    [scripted pages video scorer] answers the n-th page request with
    [pages n], whatever the request, and every [videos().list] with [video];
    its state is the number of page requests served. *)
Definition scripted (pages : nat -> reply Thread.response)
    (video : reply Video.response) (scorer : string -> scores)
  : Service nat := {|
  build := fun _ _ _ n => (Return tt, n);
  videos_list := fun _ n => (video, n);
  commentThreads_list := fun _ n => (pages n, S n);
  polarity_scores := scorer |}.

Definition thread (text : string) : Thread.item :=
  {| Thread.snippet_ := Some {| Thread.topLevelComment := Some
       {| Thread.snippet := Some {| Thread.textDisplay := Some text |} |} |} |}.

Definition page (texts : list string) (token : option string)
  : Thread.response :=
  {| Thread.items := Some (map thread texts);
     Thread.nextPageToken := token |}.

Definition with_compound (c : float) : scores :=
  {| neg := 0; neu := 0; pos := 0; compound := c |}.

(** The scenario of the specification: three comments scored 0.6, -0.6 and
    0.0. *)
Definition scorer_demo (text : string) : scores :=
  if String.eqb text "I love this!" then with_compound 0.6
  else if String.eqb text "I hate this." then with_compound (-0.6)
  else with_compound 0.

Definition comments_demo : list string :=
  ["I love this!"; "I hate this."; "It's ok."].

Definition lib_demo : Service nat :=
  scripted (fun _ => Return (page comments_demo None))
           (Return {| Video.items := None |}) scorer_demo.

Definition start {W} (x : W) : world W := {| ext := x; log := [] |}.

(** Every page is empty and names a next page. *)
Definition lib_sin_fin : Service nat :=
  scripted (fun _ => Return (page [] (Some "CDIQAA")))
           (Return {| Video.items := None |}) scorer_demo.

(** Every page holds 60 comments and names a next page. *)
Definition lib_dos_paginas : Service nat :=
  scripted (fun _ => Return (page (replicate 60 "hola") (Some "CDIQAA")))
           (Return {| Video.items := None |}) scorer_demo.

(** The video has no comments. *)
Definition lib_sin_comentarios : Service nat :=
  scripted (fun _ => Return (page [] None))
           (Return {| Video.items := None |}) scorer_demo.

(** Every request raises. *)
Definition lib_caido : Service nat :=
  scripted (fun _ => Raise "quotaExceeded") (Raise "quotaExceeded")
           scorer_demo.

(** The first page request for the demo video. *)
Definition request_demo : Thread.request :=
  {| Thread.part := "snippet";
     Thread.videoId := "dQw4w9WgXcQ";
     Thread.maxResults := 100;
     Thread.textFormat := "plainText";
     Thread.pageToken := None |}.

(** ** The specification's vocabulary *)

(** Following the words of the specification (section 4.3): a score of at
    least 0.05 is Positive, a score of at most -0.05 is Negative, any other
    score is Neutral. *)
Definition label_of_score (s : float) : string :=
  if (0.05 <=? s)%float then "Positivo"
  else if (s <=? -0.05)%float then "Negativo"
  else "Neutral".

(** The number of items of a reply; a request that raised brought none. *)
Definition n_items (r : reply Thread.response) : nat :=
  match r with
  | Return p => length (get (Thread.items p) [])
  | Raise _ => 0
  end.

(** The items of the [k] replies from the [j]-th on. *)
Fixpoint items_from (pages : nat -> reply Thread.response) (j k : nat) : nat :=
  match k with
  | O => O
  | S k' => (n_items (pages j) + items_from pages (S j) k')%nat
  end.

(** The first key that
    [item['snippet']['topLevelComment']['snippet']['textDisplay']] does not
    find, if any. *)
Definition missing_key (item : Thread.item) : option string :=
  match Thread.snippet_ item with
  | None => Some "snippet"
  | Some a =>
      match Thread.topLevelComment a with
      | None => Some "topLevelComment"
      | Some b =>
          match Thread.snippet b with
          | None => Some "snippet"
          | Some c =>
              match Thread.textDisplay c with
              | None => Some "textDisplay"
              | Some _ => None
              end
          end
      end
  end.

(** An item on which reading [textDisplay] raises [KeyError]. *)
Definition malformed (item : Thread.item) : bool :=
  match missing_key item with
  | Some _ => true
  | None => false
  end.

(** Following the words of the specification (section 4.2): the loop runs
    until either 100 comments are accumulated or the API reports no further
    page token; and, as sections 4.2 and 7 say, a failure contacting the API
    ends the fetch.  [ends_loop r n] says that the reply [r], received with
    [n] comments in hand, is the last one: the request raised, or an item of
    the page lacks the path to [textDisplay] (reading it raises), or the page
    names no next page, or its items bring the comments to 100. *)
Definition ends_loop (r : reply Thread.response) (n : nat) : bool :=
  match r with
  | Raise _ => true
  | Return p =>
      existsb malformed (get (Thread.items p) [])
      || negb (truthy_str (Thread.nextPageToken p))
      || (100 <=? n + length (get (Thread.items p) []))%nat
  end.

(** The same for the [k]-th reply of a sequence, when the replies before it
    brought one comment per item. *)
Definition ends_at (pages : nat -> reply Thread.response) (k : nat) : bool :=
  ends_loop (pages k) (items_from pages 0 k).

(** ** Vocabulary of the proofs *)

(** The two thresholds as IEEE values. *)
Definition sf_umbral_pos : spec_float := Eval vm_compute in Prim2SF 0.05.
Definition sf_umbral_neg : spec_float := Eval vm_compute in Prim2SF (-0.05).

(** The counts dict with [p] Positivo, [n] Neutral and [g] Negativo. *)
Definition tres (p n g : Z) : gmap string Z :=
  <["Negativo" := g]> (<["Neutral" := n]> (<["Positivo" := p]> ∅)).

(** How many elements of a classified list carry a label. *)
Definition cuenta (label : string) (cl : list ClassifiedComment) : Z :=
  len (filter (fun x => sentimiento x = label) cl).

(** The element the classifier appends for a comment. *)
Definition clasificado {W} (lib : Service W) (c : string)
  : ClassifiedComment :=
  {| comentario := c;
     sentimiento := label_of_score (compound (polarity_scores lib c)) |}.

(** The log entry of [analyzer.polarity_scores(c)]. *)
Definition scored (c : string) : event := Called (PolarityScores c) None.

(** The payload of the demo. *)
Definition resp_demo : Respuesta :=
  {| video_id := "dQw4w9WgXcQ";
     video_info := None;
     total_comentarios := 3;
     sentimientos := tres 1 1 1;
     lista_comentarios := map (clasificado lib_demo) comments_demo |}.

(** No call in [evs] raised. *)
Definition quiet (evs : list event) : Prop :=
  forall c m, ~ In (Called c (Some m)) evs.

(** The events of a run that ended with [r]: when a library call raised, that
    call is the last event and the only one that raised. *)
Definition shape {A} (r : outcome exception A) (evs : list event) : Prop :=
  match r with
  | Exc (LibraryError m) =>
      exists pre c, evs = pre ++ [Called c (Some m)] /\ quiet pre
  | _ => quiet evs
  end.

(** A computation whose runs all have that shape. *)
Definition tidy {W A} (m : M W exception A) : Prop :=
  forall w r w', m w = (r, w') ->
    exists evs, log w' = log w ++ evs /\ shape r evs.

(** ** Vocabulary of the further properties *)

(** The dict returned by [root]. *)
Record Mensaje := { message : string }.

(** [GET /] *)
Definition root {W} : M W exn Mensaje :=
  ret {| message :=
    "Bienvenido a la API de Análisis de Sentimientos. Usa /docs para ver la documentación." |}.

(** The request the loop sends for a video with a page token. *)
Definition page_request (video_id : string) (tok : option string)
  : Thread.request :=
  {| Thread.part := "snippet";
     Thread.videoId := video_id;
     Thread.maxResults := 100;
     Thread.textFormat := "plainText";
     Thread.pageToken := tok |}.

(** A sequence of well-formed pages: the n-th holds the comments [texts n]
    and the next-page token [toks n]. *)
Definition pages_of (texts : nat -> list string) (toks : nat -> option string)
  : nat -> reply Thread.response :=
  fun n => Return (page (texts n) (toks n)).

(** The comments of the [k] pages from the [j]-th on, in order. *)
Definition gathered (texts : nat -> list string) (j k : nat) : list string :=
  concat (map texts (seq j k)).

(** The token that goes with the i-th request when each request carries the
    token of the page before it. *)
Definition token_sent (toks : nat -> option string) (i : nat)
  : option string :=
  match i with
  | O => None
  | S i' => toks i'
  end.

(** The log entries of the [k] successful page requests from the [j]-th
    on. *)
Definition requests_made (video_id : string) (toks : nat -> option string)
    (j k : nat) : list event :=
  map (fun i =>
         Called (CommentThreadsList
                   (page_request video_id (token_sent toks i))) None)
      (seq j k).

(** A log entry that is not a call to the comment API or to the analyzer. *)
Definition metadata_event (e : event) : Prop :=
  match e with
  | Called (CommentThreadsList _) _ => False
  | Called (PolarityScores _) _ => False
  | _ => True
  end.

(** A video reply with one item whose snippet has only a title. *)
Definition video_demo : Video.response :=
  {| Video.items := Some
       [{| Video.snippet_ := Some
             {| Video.title := Some "Never Gonna Give You Up";
                Video.channelTitle := None;
                Video.thumbnails_ := None;
                Video.publishedAt := None |} |}] |}.

(** The demo comments, with a video reply. *)
Definition lib_video : Service nat :=
  scripted (fun _ => Return (page comments_demo None))
           (Return video_demo) scorer_demo.

(** Two pages of the demo comments, then a last page. *)
Definition toks_demo (n : nat) : option string :=
  match n with
  | O => Some "CDIQAA"
  | _ => None
  end.

(** A page whose second item has no [textDisplay]. *)
Definition page_rota : Thread.response :=
  {| Thread.items := Some
       [thread "hola";
        {| Thread.snippet_ := Some {| Thread.topLevelComment := Some
             {| Thread.snippet := Some {| Thread.textDisplay := None |} |} |} |};
        thread "adios"];
     Thread.nextPageToken := None |}.

Definition lib_roto : Service nat :=
  scripted (fun _ => Return page_rota)
           (Return {| Video.items := None |}) scorer_demo.

(** A log entry the comment fetcher may add for a video: the [build] call
    with the key, a page request for that video with the fixed parameters,
    or a printed line. *)
Definition fetch_event (API_KEY : option string) (video_id : string)
    (e : event) : Prop :=
  match e with
  | Called (Build serviceName version developerKey) _ =>
      serviceName = "youtube" /\ version = "v3" /\ developerKey = API_KEY
  | Called (CommentThreadsList req) _ =>
      Thread.part req = "snippet" /\ Thread.videoId req = video_id /\
      Thread.maxResults req = 100 /\ Thread.textFormat req = "plainText"
  | Called _ _ => False
  | Printed _ => True
  end.

(** A computation whose runs only add log entries that satisfy [P]. *)
Definition adds {W E A} (P : event -> Prop) (m : M W E A) : Prop :=
  forall w r w', m w = (r, w') ->
    exists evs, log w' = log w ++ evs /\ Forall P evs.

(** * Properties *)

(** ** The thresholds *)

(** No binary64 value is both at most -0.05 and at least 0.05. *)
Lemma umbrales_disjuntos (s : float) :
  (s <=? -0.05)%float = true -> (0.05 <=? s)%float = false.
Proof.
  rewrite !leb_spec.
  replace (Prim2SF (-0.05)) with sf_umbral_neg by (vm_compute; reflexivity).
  replace (Prim2SF 0.05) with sf_umbral_pos by (vm_compute; reflexivity).
  destruct (Prim2SF s) as [sg | sg | | sg m e]; try destruct sg;
    unfold sf_umbral_neg, sf_umbral_pos, SFleb, SFcompare; congruence.
Qed.

(** ** The counts dict *)

Lemma tres_lookup p n g :
  tres p n g !! "Positivo" = Some p /\
  tres p n g !! "Neutral" = Some n /\
  tres p n g !! "Negativo" = Some g.
Proof. unfold tres. repeat split; by simplify_map_eq. Qed.

Lemma tres_dom p n g :
  dom (tres p n g) = ({["Positivo"; "Neutral"; "Negativo"]} : gset string).
Proof. unfold tres. rewrite !dom_insert_L, dom_empty_L. set_solver. Qed.

Lemma tres_Positivo p n g :
  <["Positivo" := p + 1]> (tres p n g) = tres (p + 1) n g.
Proof.
  unfold tres.
  rewrite (insert_insert_ne _ "Positivo" "Negativo") by done.
  rewrite (insert_insert_ne _ "Positivo" "Neutral") by done.
  by rewrite insert_insert_eq.
Qed.

Lemma tres_Neutral p n g :
  <["Neutral" := n + 1]> (tres p n g) = tres p (n + 1) g.
Proof.
  unfold tres.
  rewrite (insert_insert_ne _ "Neutral" "Negativo") by done.
  by rewrite insert_insert_eq.
Qed.

Lemma tres_Negativo p n g :
  <["Negativo" := g + 1]> (tres p n g) = tres p n (g + 1).
Proof. unfold tres. by rewrite insert_insert_eq. Qed.

Lemma increment_tres {W} p n g (w : world W) :
  increment (tres p n g) "Positivo" w = (Val (tres (p + 1) n g), w) /\
  increment (tres p n g) "Neutral" w = (Val (tres p (n + 1) g), w) /\
  increment (tres p n g) "Negativo" w = (Val (tres p n (g + 1)), w).
Proof.
  destruct (tres_lookup p n g) as (Hp & Hn & Hg).
  unfold increment. rewrite Hp, Hn, Hg.
  by rewrite tres_Positivo, tres_Neutral, tres_Negativo.
Qed.

Lemma cuenta_cons label x cl :
  cuenta label (x :: cl) = cuenta label [x] + cuenta label cl.
Proof.
  unfold cuenta, len. rewrite !filter_cons, filter_nil.
  destruct (decide (sentimiento x = label)); cbn [length]; lia.
Qed.

Lemma cuenta_single label c l :
  cuenta label [{| comentario := c; sentimiento := l |}] =
  if decide (l = label) then 1 else 0.
Proof.
  unfold cuenta, len. rewrite filter_cons, filter_nil. cbn [sentimiento].
  destruct (decide (l = label)); reflexivity.
Qed.

(** Settles the three counts of one classified comment. *)
Ltac one_label :=
  rewrite !cuenta_single; repeat case_decide; try done; lia.

(** ** The classifier *)

Section Classifier.
Context {W : Type} (lib : Service W).

(** One iteration on a dict that holds the three labels: the count of the
    label given to the comment goes up by one. *)
Lemma clasificar_tres p n g cl c (w : world W) :
  exists p' n' g',
    clasificar lib (tres p n g, cl) c w =
      (Val (tres p' n' g', cl ++ [clasificado lib c]), record (scored c) w)
    /\ p' = p + cuenta "Positivo" [clasificado lib c]
    /\ n' = n + cuenta "Neutral" [clasificado lib c]
    /\ g' = g + cuenta "Negativo" [clasificado lib c]
    /\ p' + n' + g' = p + n + g + 1.
Proof.
  destruct (increment_tres p n g (record (scored c) w)) as (Hp & Hn & Hg).
  unfold clasificar, clasificado, label_of_score, analyzer_polarity_scores,
    bind, scored in *.
  destruct (0.05 <=? compound (polarity_scores lib c))%float.
  - exists (p + 1), n, g. rewrite Hp.
    split; [reflexivity | one_label].
  - destruct (compound (polarity_scores lib c) <=? -0.05)%float.
    + exists p, n, (g + 1). rewrite Hg.
      split; [reflexivity | one_label].
    + exists p, (n + 1), g. rewrite Hn.
      split; [reflexivity | one_label].
Qed.

(** The whole loop, from any dict that holds the three labels. *)
Lemma for_each_clasificar l : forall p n g cl (w : world W),
  exists p' n' g',
    for_each (clasificar lib) (tres p n g, cl) l w =
      (Val (tres p' n' g', cl ++ map (clasificado lib) l),
       {| ext := ext w; log := log w ++ map scored l |})
    /\ p' = p + cuenta "Positivo" (map (clasificado lib) l)
    /\ n' = n + cuenta "Neutral" (map (clasificado lib) l)
    /\ g' = g + cuenta "Negativo" (map (clasificado lib) l)
    /\ p' + n' + g' = p + n + g + len l.
Proof.
  induction l as [|c l IH]; intros p n g cl w.
  - exists p, n, g. cbn. rewrite !app_nil_r. destruct w.
    split; [reflexivity | unfold cuenta, len; cbn; lia].
  - destruct (clasificar_tres p n g cl c w)
      as (p1 & n1 & g1 & H1 & Hp1 & Hn1 & Hg1 & Hs1).
    destruct (IH p1 n1 g1 (cl ++ [clasificado lib c]) (record (scored c) w))
      as (p2 & n2 & g2 & H2 & Hp2 & Hn2 & Hg2 & Hs2).
    exists p2, n2, g2. cbn [for_each]. unfold bind at 1. rewrite H1, H2.
    cbn [map record ext log]. rewrite <- !app_assoc.
    split; [reflexivity|].
    rewrite !(cuenta_cons _ (clasificado lib c) (map (clasificado lib) l)).
    unfold len in *. cbn [length]. lia.
Qed.

Lemma analizar_sentimientos_vader_run lista (w : world W) :
  exists p n g,
    analizar_sentimientos_vader lib lista w =
      (Val (tres p n g, map (clasificado lib) lista),
       {| ext := ext w; log := log w ++ map scored lista |})
    /\ p = cuenta "Positivo" (map (clasificado lib) lista)
    /\ n = cuenta "Neutral" (map (clasificado lib) lista)
    /\ g = cuenta "Negativo" (map (clasificado lib) lista)
    /\ p + n + g = len lista.
Proof.
  destruct (for_each_clasificar lista 0 0 0 [] w)
    as (p & n & g & H & Hp & Hn & Hg & Hs).
  exists p, n, g. split; [exact H | lia].
Qed.
End Classifier.

(** ** What a run adds to the log *)

Lemma quiet_nil : quiet [].
Proof. intros c m []. Qed.

Lemma quiet_app evs1 evs2 : quiet evs1 -> quiet evs2 -> quiet (evs1 ++ evs2).
Proof.
  intros H1 H2 c m Hin. apply in_app_or in Hin as [Hin|Hin].
  - exact (H1 c m Hin).
  - exact (H2 c m Hin).
Qed.

Lemma quiet_called c : quiet [Called c None].
Proof. intros c' m [Heq|[]]. discriminate. Qed.

Lemma shape_app {A} (r : outcome exception A) evs1 evs2 :
  quiet evs1 -> shape r evs2 -> shape r (evs1 ++ evs2).
Proof.
  intros H1 H2. destruct r as [a|[k| |m]|]; cbn in *;
    try (apply quiet_app; assumption).
  destruct H2 as (pre & c & -> & Hq).
  exists (evs1 ++ pre), c. split; [apply app_assoc | by apply quiet_app].
Qed.

Section Tidy.
Context {W : Type}.

(** A computation that ends at once, without an event. *)
Lemma tidy_silent {A} (r : outcome exception A) :
  shape r [] -> tidy (W := W) (fun w => (r, w)).
Proof.
  intros Hs w r' w' [= <- <-]. exists []. rewrite app_nil_r.
  split; [reflexivity | exact Hs].
Qed.

Lemma tidy_ret {A} (a : A) : tidy (W := W) (ret a).
Proof. apply tidy_silent; apply quiet_nil. Qed.

Lemma tidy_getitem {A} key (field : option A) :
  tidy (W := W) (getitem key field).
Proof.
  destruct field; [apply tidy_ret|]. apply tidy_silent; apply quiet_nil.
Qed.

Lemma tidy_first_item {A} (l : list A) : tidy (W := W) (first_item l).
Proof.
  destruct l; [|apply tidy_ret]. apply tidy_silent; apply quiet_nil.
Qed.

Lemma tidy_stop {A} : tidy (W := W) (A := A) (fun w => (OutOfFuel, w)).
Proof. apply tidy_silent; apply quiet_nil. Qed.

Lemma tidy_call {A} c (f : W -> reply A * W) : tidy (call c f).
Proof.
  intros w r w'. unfold call. destruct (f (ext w)) as [[a|msg] x].
  - intros [= <- <-]. exists [Called c None].
    split; [reflexivity | apply quiet_called].
  - intros [= <- <-]. exists [Called c (Some msg)].
    split; [reflexivity|].
    exists [], c. split; [reflexivity | apply quiet_nil].
Qed.

Lemma tidy_bind {A B} (m : M W exception A) (k : A -> M W exception B) :
  tidy m -> (forall a, tidy (k a)) -> tidy (bind m k).
Proof.
  intros Hm Hk w r w'. unfold bind.
  destruct (m w) as [r1 w1] eqn:E1.
  destruct (Hm _ _ _ E1) as (evs1 & Hl1 & Hs1).
  destruct r1 as [a|e|].
  - intros E2. destruct (Hk a _ _ _ E2) as (evs2 & Hl2 & Hs2).
    exists (evs1 ++ evs2). rewrite Hl2, Hl1, app_assoc.
    split; [reflexivity | by apply shape_app].
  - intros [= <- <-]. by exists evs1.
  - intros [= <- <-]. by exists evs1.
Qed.

Lemma tidy_for_each {A S} (body : S -> A -> M W exception S) l :
  (forall s x, tidy (body s x)) -> forall s, tidy (for_each body s l).
Proof.
  intros Hb. induction l as [|x l IH]; intros s; cbn [for_each].
  - apply tidy_ret.
  - apply tidy_bind; [apply Hb | intros s'; apply IH].
Qed.

Context (lib : Service W) (API_KEY : option string).

Lemma tidy_textDisplay_of item : tidy (textDisplay_of (W := W) item).
Proof.
  unfold textDisplay_of.
  repeat (apply tidy_bind; [apply tidy_getitem | intros ?]).
  apply tidy_getitem.
Qed.

Lemma tidy_append_comment comentarios item :
  tidy (append_comment (W := W) comentarios item).
Proof.
  apply tidy_bind; [apply tidy_textDisplay_of | intros; apply tidy_ret].
Qed.

Lemma tidy_paginar fuel : forall video_id comentarios next_page_token,
  tidy (paginar lib fuel video_id comentarios next_page_token).
Proof.
  induction fuel as [|fuel IH]; intros video_id comentarios token;
    cbn [paginar]; destruct (len comentarios <? 100);
    try apply tidy_ret; try apply tidy_stop.
  apply tidy_bind; [apply tidy_call | intros response].
  apply tidy_bind.
  - apply tidy_for_each, tidy_append_comment.
  - intros acc. destruct (negb _); [apply tidy_ret | apply IH].
Qed.

(** The [try] block of [obtener_comentarios_youtube]. *)
Lemma tidy_fetch_body fuel video_id :
  tidy (run build_youtube lib API_KEY;
        do comentarios <- paginar lib fuel video_id [] None;
        ret (take 100 comentarios)).
Proof.
  apply tidy_bind; [apply tidy_call | intros _].
  apply tidy_bind; [apply tidy_paginar | intros; apply tidy_ret].
Qed.
End Tidy.

(** ** The metadata fetcher *)

Section Metadata.
Context {W : Type} (lib : Service W) (API_KEY : option string).

(** The fetcher always returns; it returns a record only when no call
    raised and the reply holds a first item with a snippet. *)
Lemma obtener_info_video_cases video_id (w : world W) :
  exists info w1 evs,
    obtener_info_video lib API_KEY video_id w = (Val info, w1)
    /\ log w1 = log w ++ evs
    /\ ((exists c m, In (Called c (Some m)) evs) -> info = None)
    /\ (forall v, info = Some v ->
          exists x0 x1 resp item rest snip,
            videos_list lib
              {| Video.part := "snippet"; Video.id := video_id |} x0 =
              (Return resp, x1)
            /\ Video.items resp = Some (item :: rest)
            /\ Video.snippet_ item = Some snip).
Proof.
  unfold obtener_info_video.
  destruct (truthy_str API_KEY); cbn [negb].
  2:{ exists None, w, []. rewrite app_nil_r.
      repeat split; try reflexivity; intros; discriminate. }
  unfold try_except, bind, build_youtube, call, print, record.
  destruct (build lib "youtube" "v3" API_KEY (ext w)) as [[[]|m] x0];
    cbn [ext log].
  2:{ eexists None, _, _. rewrite <- app_assoc.
      repeat split; try reflexivity; intros; discriminate. }
  destruct (videos_list lib _ x0) as [[resp|m] x1] eqn:Hlist; cbn [ext log].
  2:{ eexists None, _, _. rewrite <- !app_assoc.
      repeat split; try reflexivity; intros; discriminate. }
  destruct resp as [[[|[[snip|]] rest]|]]; cbn.
  - eexists None, _, _. rewrite <- !app_assoc.
    repeat split; try reflexivity; intros; discriminate.
  - eexists (Some _), _, _. rewrite <- !app_assoc.
    split; [reflexivity|]. split; [reflexivity|]. split.
    + intros (c & m & [Hin|[Hin|[]]]); discriminate.
    + intros v _. exists x0, x1. eexists _, _, _, _.
      split; [exact Hlist|]. split; reflexivity.
  - eexists None, _, _. rewrite <- !app_assoc.
    repeat split; try reflexivity; intros; discriminate.
  - eexists None, _, _. rewrite <- !app_assoc.
    repeat split; try reflexivity; intros; discriminate.
Qed.
End Metadata.

(** ** The comment fetcher and the handler *)

Section Fetch.
Context {W : Type} (lib : Service W) (API_KEY : option string).

(** A list returned by the fetcher is the first 100 elements of the list
    the loop accumulated. *)
Lemma obtener_comentarios_youtube_val fuel video_id (w w' : world W) l :
  obtener_comentarios_youtube lib API_KEY fuel video_id w = (Val l, w') ->
  exists comentarios, l = take 100 comentarios.
Proof.
  unfold obtener_comentarios_youtube.
  destruct (negb (truthy_str API_KEY)); [discriminate|].
  unfold try_except, bind at 1.
  destruct (build_youtube lib API_KEY w) as [[[]|e|] w1];
    try discriminate.
  unfold bind.
  destruct (paginar lib fuel video_id [] None w1) as [[cs|e|] w2];
    try discriminate.
  cbn. intros [= <- <-]. by exists cs.
Qed.

(** With the key configured, a run of the fetcher in which a library call
    raised ends with the 500 exception that quotes the message, right after
    that call. *)
Lemma obtener_comentarios_youtube_raised fuel video_id (w w' : world W)
    r evs c m :
  truthy_str API_KEY = true ->
  obtener_comentarios_youtube lib API_KEY fuel video_id w = (r, w') ->
  log w' = log w ++ evs ->
  In (Called c (Some m)) evs ->
  r = Exc (HTTPException 500
             ("Error al contactar la API de YouTube: " +:+ m))
  /\ exists pre,
       evs = pre ++
             [Called c (Some m);
              Printed ("Error al llamar a la API de YouTube: " +:+ m)]
       /\ quiet pre.
Proof.
  intros Hkey. unfold obtener_comentarios_youtube. rewrite Hkey.
  cbn [negb]. unfold try_except.
  destruct (bind _ _ w) as [r1 w1] eqn:Hbody.
  destruct (tidy_fetch_body lib API_KEY fuel video_id _ _ _ Hbody)
    as (evs1 & Hl1 & Hs1).
  destruct r1 as [a|e|].
  - intros [= <- <-] Hl Hin. rewrite Hl1 in Hl.
    apply app_inv_head in Hl. subst evs1. destruct (Hs1 _ _ Hin).
  - unfold bind, print, raise, record. intros [= <- <-]. cbn [log].
    rewrite Hl1, <- app_assoc. intros Hl Hin.
    apply app_inv_head in Hl. subst evs.
    apply in_app_or in Hin as [Hin|[Hin|[]]]; [|discriminate].
    destruct e as [k| |m1]; cbn in Hs1;
      try (destruct (Hs1 _ _ Hin)).
    destruct Hs1 as (pre & c1 & -> & Hq).
    apply in_app_or in Hin as [Hin|[Hin|[]]]; [destruct (Hq _ _ Hin)|].
    injection Hin as <- <-. split; [reflexivity|].
    exists pre. rewrite <- app_assoc. by split.
  - intros [= <- <-] Hl Hin. rewrite Hl1 in Hl.
    apply app_inv_head in Hl. subst evs1. destruct (Hs1 _ _ Hin).
Qed.

(** The handler after the metadata fetch. *)
Lemma analizar_video_unfold fuel video_id (w : world W) info w1 :
  obtener_info_video lib API_KEY video_id w = (Val info, w1) ->
  analizar_video lib API_KEY fuel video_id w =
    match obtener_comentarios_youtube lib API_KEY fuel video_id w1 with
    | (Val [], w2) =>
        (Exc (HTTPException 404
                "No se encontraron comentarios para este video."), w2)
    | (Val comentarios, w2) =>
        match analizar_sentimientos_vader lib comentarios w2 with
        | (Val (counts, classified_list), w3) =>
            (Val {| video_id := video_id;
                    video_info := info;
                    total_comentarios := len comentarios;
                    sentimientos := counts;
                    lista_comentarios := classified_list |}, w3)
        | (Exc e, w3) => (Exc e, w3)
        | (OutOfFuel, w3) => (OutOfFuel, w3)
        end
    | (Exc e, w2) => (Exc e, w2)
    | (OutOfFuel, w2) => (OutOfFuel, w2)
    end.
Proof.
  intros Hinfo. unfold analizar_video, bind at 1. rewrite Hinfo.
  unfold bind at 1.
  destruct (obtener_comentarios_youtube lib API_KEY fuel video_id w1)
    as [[[|c cs]|e|] w2]; try reflexivity.
  unfold bind.
  destruct (analizar_sentimientos_vader lib (c :: cs) w2)
    as [[[counts cl]|e|] w3]; reflexivity.
Qed.
End Fetch.

(** ** The paging loop *)

Section Paging.
Context {W : Type} (lib : Service W).

Lemma textDisplay_of_cases item (w : world W) :
  (exists s, textDisplay_of item w = (Val s, w)) \/
  (exists e, textDisplay_of item w = (Exc e, w)).
Proof. destruct item as [[[[[[[[s|]]|]]|]]|]]; cbn; eauto. Qed.

(** Reading the items of a page leaves the world alone and either raises
    or adds one comment per item. *)
Lemma for_each_append_comment items : forall acc (w : world W),
  (exists acc', for_each append_comment acc items w = (Val acc', w)
                /\ length acc' = (length acc + length items)%nat) \/
  (exists e, for_each append_comment acc items w = (Exc e, w)).
Proof.
  induction items as [|item items IH]; intros acc w.
  - left. exists acc. split; [reflexivity | cbn; lia].
  - assert (Hstep : for_each append_comment acc (item :: items) w =
      match textDisplay_of item w with
      | (Val s, w') => for_each append_comment (acc ++ [s]) items w'
      | (Exc e, w') => (Exc e, w')
      | (OutOfFuel, w') => (OutOfFuel, w')
      end).
    { cbn [for_each]. unfold bind, append_comment, bind.
      destruct (textDisplay_of item w) as [[s|e|] w']; reflexivity. }
    rewrite Hstep.
    destruct (textDisplay_of_cases item w) as [(s & ->)|(e & ->)].
    + destruct (IH (acc ++ [s]) w) as [(acc' & -> & Hlen)|(e & ->)].
      * left. exists acc'. split; [reflexivity|].
        rewrite Hlen, length_app. cbn. lia.
      * right. by exists e.
    + right. by exists e.
Qed.

(** Reading the items of a page raises exactly when one of them is
    malformed. *)
Lemma for_each_append_comment_exact items : forall acc (w : world W),
  (existsb malformed items = true /\
   exists e, for_each append_comment acc items w = (Exc e, w)) \/
  (existsb malformed items = false /\
   exists acc', for_each append_comment acc items w = (Val acc', w)
                /\ length acc' = (length acc + length items)%nat).
Proof.
  induction items as [|item items IH]; intros acc w.
  - right. split; [reflexivity|]. exists acc. split; [reflexivity | cbn; lia].
  - assert (Hstep : for_each append_comment acc (item :: items) w =
      match textDisplay_of item w with
      | (Val s, w') => for_each append_comment (acc ++ [s]) items w'
      | (Exc e, w') => (Exc e, w')
      | (OutOfFuel, w') => (OutOfFuel, w')
      end).
    { cbn [for_each]. unfold bind, append_comment, bind.
      destruct (textDisplay_of item w) as [[s|e|] w']; reflexivity. }
    rewrite Hstep. cbn [existsb]. unfold malformed at 1 3.
    destruct item as [[[[[[[[s|]]|]]|]]|]]; cbn;
      try (left; split; [reflexivity | eauto]).
    destruct (IH (acc ++ [s]) w)
      as [(Hbad & e & ->)|(Hok & acc' & -> & Hlen)].
    + left. split; [exact Hbad | eauto].
    + right. split; [exact Hok|]. exists acc'. split; [reflexivity|].
      rewrite Hlen, length_app. cbn. lia.
Qed.

(** With 100 comments in hand the loop is over, whatever the fuel. *)
Lemma paginar_full fuel video_id acc tok (w : world W) :
  100 <= len acc -> paginar lib fuel video_id acc tok w = (Val acc, w).
Proof.
  intros H. destruct fuel; cbn [paginar];
    destruct (Z.ltb_spec (len acc) 100); try lia; reflexivity.
Qed.
End Paging.

Section ScriptedPaging.
Context (pages : nat -> reply Thread.response)
        (video : reply Video.response) (scorer : string -> scores).

Local Abbreviation lib := (scripted pages video scorer).

(** One iteration on a scripted API. *)
Lemma paginar_scripted_step fuel video_id acc tok (w : world nat) :
  len acc < 100 ->
  exists w1, ext w1 = S (ext w) /\
    paginar lib (S fuel) video_id acc tok w =
      match pages (ext w) with
      | Raise m => (Exc (LibraryError m), w1)
      | Return p =>
          match for_each append_comment acc (get (Thread.items p) []) w1 with
          | (Val acc', w2) =>
              if negb (truthy_str (Thread.nextPageToken p))
              then (Val acc', w2)
              else paginar lib fuel video_id acc' (Thread.nextPageToken p) w2
          | (Exc e, w2) => (Exc e, w2)
          | (OutOfFuel, w2) => (OutOfFuel, w2)
          end
      end.
Proof.
  intros Hlt. cbn [paginar].
  destruct (Z.ltb_spec (len acc) 100) as [_|]; [|lia].
  unfold bind at 1, call. cbn [commentThreads_list scripted].
  destruct (pages (ext w)) as [p|m].
  - unfold bind at 1.
    match goal with |- context [for_each _ _ _ ?w1] => exists w1 end.
    split; [reflexivity|].
    destruct (for_each _ _ _ _) as [[acc'|e|] w2]; try reflexivity.
    destruct (negb _); reflexivity.
  - match goal with |- context [(Exc _, ?w1)] => exists w1 end.
    split; reflexivity.
Qed.

(** The loop from the reply it is about to request: while no reply ends it
    the loop goes on, one request per reply, and the first reply that ends
    it is the last one it requests. *)
Lemma paginar_scripted_exact video_id : forall d acc tok (w : world nat) fuel,
  (length acc < 100)%nat ->
  (forall i, (i < d)%nat ->
     ends_loop (pages (ext w + i)%nat)
               (length acc + items_from pages (ext w) i) = false) ->
  ((d < fuel)%nat ->
   ends_loop (pages (ext w + d)%nat)
             (length acc + items_from pages (ext w) d) = true ->
   exists r w',
     paginar lib fuel video_id acc tok w = (r, w')
     /\ r <> OutOfFuel
     /\ ext w' = (ext w + S d)%nat)
  /\ (fuel = d ->
      exists w',
        paginar lib fuel video_id acc tok w = (OutOfFuel, w')
        /\ ext w' = (ext w + d)%nat).
Proof.
  induction d as [|d IH]; intros acc tok w fuel Hacc Hgo.
  - split.
    + intros Hfuel Hend. destruct fuel as [|fuel]; [lia|].
      destruct (paginar_scripted_step fuel video_id acc tok w)
        as (w1 & Hw1 & ->); [unfold len; lia|].
      rewrite Nat.add_0_r in Hend. cbn [items_from] in Hend.
      rewrite Nat.add_0_r in Hend. unfold ends_loop in Hend.
      destruct (pages (ext w)) as [p|m].
      2:{ eexists _, _. split; [reflexivity|]. split; [discriminate | lia]. }
      destruct (for_each_append_comment_exact (get (Thread.items p) []) acc w1)
        as [(Hbad & e & ->)|(Hok & acc' & -> & Hlen)].
      { eexists _, _. split; [reflexivity|]. split; [discriminate | lia]. }
      rewrite Hok in Hend. cbn [orb] in Hend.
      destruct (negb (truthy_str (Thread.nextPageToken p))).
      { eexists _, _. split; [reflexivity|]. split; [discriminate | lia]. }
      cbn [orb] in Hend. apply Nat.leb_le in Hend.
      rewrite paginar_full by (unfold len; lia).
      eexists _, _. split; [reflexivity|]. split; [discriminate | lia].
    + intros ->. exists w. cbn [paginar].
      destruct (Z.ltb_spec (len acc) 100) as [_|H]; [|unfold len in H; lia].
      split; [reflexivity | lia].
  - assert (H0 := Hgo 0%nat ltac:(lia)).
    rewrite Nat.add_0_r in H0. cbn [items_from] in H0.
    rewrite Nat.add_0_r in H0. unfold ends_loop in H0.
    destruct (pages (ext w)) as [p|m] eqn:Hp; [|discriminate].
    apply orb_false_elim in H0 as (H0 & Hroom).
    apply orb_false_elim in H0 as (Hok & Htok).
    apply Nat.leb_gt in Hroom.
    assert (Hnext : forall fuel', exists w1 acc',
      ext w1 = S (ext w)
      /\ length acc' = (length acc + length (get (Thread.items p) []))%nat
      /\ paginar lib (S fuel') video_id acc tok w =
           paginar lib fuel' video_id acc' (Thread.nextPageToken p) w1).
    { intros fuel'.
      destruct (paginar_scripted_step fuel' video_id acc tok w)
        as (w1 & Hw1 & ->); [unfold len; lia|].
      rewrite Hp.
      destruct (for_each_append_comment_exact (get (Thread.items p) []) acc w1)
        as [(Hbad & _)|(_ & acc' & -> & Hlen)]; [congruence|].
      rewrite Htok. by exists w1, acc'. }
    assert (Hrest : forall (w1 : world nat) (acc' : list string),
      ext w1 = S (ext w) ->
      length acc' = (length acc + length (get (Thread.items p) []))%nat ->
      forall i, (i < d)%nat ->
        ends_loop (pages (ext w1 + i)%nat)
                  (length acc' + items_from pages (ext w1) i) = false).
    { intros w1 acc' Hw1 Hlen i Hi. specialize (Hgo (S i) ltac:(lia)).
      cbn [items_from] in Hgo. rewrite Hp in Hgo. cbn [n_items] in Hgo.
      rewrite Hw1, Hlen.
      replace (S (ext w) + i)%nat with (ext w + S i)%nat by lia.
      by rewrite <- Nat.add_assoc. }
    split.
    + intros Hfuel Hend. destruct fuel as [|fuel]; [lia|].
      destruct (Hnext fuel) as (w1 & acc' & Hw1 & Hlen & ->).
      destruct (IH acc' (Thread.nextPageToken p) w1 fuel) as (Ha & _);
        [lia | by apply Hrest |].
      destruct Ha as (r & w' & Hrun & Hr & Hext); [lia | |].
      * cbn [items_from] in Hend. rewrite Hp in Hend. cbn [n_items] in Hend.
        rewrite Hw1, Hlen.
        replace (S (ext w) + d)%nat with (ext w + S d)%nat by lia.
        by rewrite <- Nat.add_assoc.
      * exists r, w'. split; [exact Hrun|]. split; [exact Hr | lia].
    + intros ->.
      destruct (Hnext d) as (w1 & acc' & Hw1 & Hlen & ->).
      destruct (IH acc' (Thread.nextPageToken p) w1 d) as (_ & Hb);
        [lia | by apply Hrest |].
      destruct (Hb eq_refl) as (w' & Hrun & Hext).
      exists w'. split; [exact Hrun | lia].
Qed.
End ScriptedPaging.

(** On the API whose pages are all empty and all name a next page, the loop
    is still running when the fuel ends, whatever the fuel. *)
Lemma paginar_sin_fin video_id : forall fuel tok (w : world nat),
  fst (paginar lib_sin_fin fuel video_id [] tok w) = OutOfFuel.
Proof.
  induction fuel as [|fuel IH]; intros tok w; [reflexivity|].
  cbn. unfold bind, call. cbn. apply IH.
Qed.

(** * The claims of the specification *)

Section ClassifierClaims.
Context {W : Type} (lib : Service W).

(** C1. For every list of comments the classifier returns a counts dict
    that holds exactly the three labels Positivo, Neutral and Negativo;
    each count is the number of comments given that label (zero when there
    is none), and the three counts add up to the length of the list. *)
Theorem counts_sum_to_length (lista : list string) (w : world W) :
  exists counts classified w' p n g,
    analizar_sentimientos_vader lib lista w = (Val (counts, classified), w')
    /\ counts !! "Positivo" = Some p
    /\ counts !! "Neutral" = Some n
    /\ counts !! "Negativo" = Some g
    /\ dom counts = ({["Positivo"; "Neutral"; "Negativo"]} : gset string)
    /\ p = cuenta "Positivo" classified
    /\ n = cuenta "Neutral" classified
    /\ g = cuenta "Negativo" classified
    /\ p + n + g = len lista.
Proof.
  destruct (analizar_sentimientos_vader_run lib lista w)
    as (p & n & g & H & Hcp & Hcn & Hcg & Hs).
  destruct (tres_lookup p n g) as (Hp & Hn & Hg).
  exists (tres p n g), (map (clasificado lib) lista).
  eexists. exists p, n, g.
  split; [exact H|]. split; [exact Hp|]. split; [exact Hn|].
  split; [exact Hg|]. split; [apply tres_dom|].
  split; [exact Hcp|]. split; [exact Hcn|]. split; [exact Hcg | exact Hs].
Qed.

(** C2. The label of a comment is [label_of_score] of its compound score,
    whatever the comment, its position, the list or the world: at least 0.05
    is Positivo, at most -0.05 is Negativo, anything else is Neutral, with
    0.05 itself Positivo, -0.05 itself Negativo and 0.0 Neutral. *)
Theorem label_follows_thresholds
    (lista : list string) (w w' : world W) (counts : gmap string Z)
    (classified : list ClassifiedComment)
    (i : nat) (c : string) (x : ClassifiedComment) :
  analizar_sentimientos_vader lib lista w = (Val (counts, classified), w') ->
  lista !! i = Some c ->
  classified !! i = Some x ->
  let s := compound (polarity_scores lib c) in
  sentimiento x = label_of_score s
  /\ ((0.05 <=? s)%float = true -> sentimiento x = "Positivo")
  /\ ((s <=? -0.05)%float = true -> sentimiento x = "Negativo")
  /\ ((0.05 <=? s)%float = false -> (s <=? -0.05)%float = false ->
      sentimiento x = "Neutral")
  /\ (s = 0.05%float -> sentimiento x = "Positivo")
  /\ (s = (-0.05)%float -> sentimiento x = "Negativo")
  /\ (s = 0%float -> sentimiento x = "Neutral").
Proof.
  intros Hrun Hi Hx s.
  destruct (analizar_sentimientos_vader_run lib lista w)
    as (p & n & g & H & _).
  rewrite H in Hrun. injection Hrun as _ Hcl _. subst classified.
  rewrite list_lookup_fmap, Hi in Hx. injection Hx as <-.
  cbn [sentimiento clasificado]. fold s.
  split; [reflexivity|]. unfold label_of_score.
  split; [intros ->; reflexivity|].
  split; [intros Hn; rewrite (umbrales_disjuntos s Hn), Hn; reflexivity|].
  split; [intros -> ->; reflexivity|].
  repeat split; intros ->; reflexivity.
Qed.

(** C3. For every list of comments the classified list has the length of
    the input and its i-th element carries the i-th input comment. *)
Theorem classified_list_follows_input (lista : list string) (w : world W) :
  exists counts classified w',
    analizar_sentimientos_vader lib lista w = (Val (counts, classified), w')
    /\ length classified = length lista
    /\ map comentario classified = lista
    /\ forall (i : nat) (c : string),
         lista !! i = Some c ->
         exists x, classified !! i = Some x /\ comentario x = c.
Proof.
  destruct (analizar_sentimientos_vader_run lib lista w)
    as (p & n & g & H & _).
  exists (tres p n g), (map (clasificado lib) lista). eexists.
  split; [exact H|]. split; [apply length_map|]. split.
  - rewrite map_map. cbn. apply map_id.
  - intros i c Hi. exists (clasificado lib c). split; [|reflexivity].
    rewrite list_lookup_fmap_Some. (exists c; auto).
Qed.
End ClassifierClaims.

Lemma label_follows_thresholds_witness :
  sentimiento {| comentario := "I love this!"; sentimiento := "Positivo" |} =
  label_of_score (compound (scorer_demo "I love this!")).
Proof.
  refine (proj1 (label_follows_thresholds lib_demo comments_demo
    (start 0%nat)
    {| ext := 0%nat; log := map scored comments_demo |}
    (tres 1 1 1) (map (clasificado lib_demo) comments_demo)
    0%nat "I love this!"
    {| comentario := "I love this!"; sentimiento := "Positivo" |} _ _ _));
  vm_compute; reflexivity.
Defined.

Section FetchClaims.
Context {W : Type} (lib : Service W) (API_KEY : option string).

(** C4. Whatever the pages the API returns, a list returned by
    [obtener_comentarios_youtube] has at most 100 comments. *)
Theorem fetch_returns_at_most_100
    (fuel : nat) (video_id : string) (w w' : world W) (l : list string) :
  obtener_comentarios_youtube lib API_KEY fuel video_id w = (Val l, w') ->
  len l <= 100.
Proof.
  intros H. apply obtener_comentarios_youtube_val in H as (cs & ->).
  unfold len. rewrite length_take. lia.
Qed.

(** C5. Without an API key (unset or empty) the metadata fetcher returns
    None and the handler raises the 503 exception, for every video id and
    every fuel, and neither makes a call: the world and its log are
    unchanged. *)
Theorem missing_key_is_503
    (fuel : nat) (video_id : string) (w : world W) :
  truthy_str API_KEY = false ->
  obtener_info_video lib API_KEY video_id w = (Val None, w)
  /\ obtener_comentarios_youtube lib API_KEY fuel video_id w =
       (Exc (HTTPException 503
          "Servicio no disponible: Falta configuración de API Key en el servidor."),
        w)
  /\ analizar_video lib API_KEY fuel video_id w =
       (Exc (HTTPException 503
          "Servicio no disponible: Falta configuración de API Key en el servidor."),
        w).
Proof.
  intros Hkey.
  assert (Hinfo : obtener_info_video lib API_KEY video_id w = (Val None, w)).
  { unfold obtener_info_video. rewrite Hkey. reflexivity. }
  split; [exact Hinfo|].
  rewrite (analizar_video_unfold lib API_KEY fuel video_id w None w Hinfo).
  unfold obtener_comentarios_youtube. rewrite Hkey.
  split; reflexivity.
Qed.

(** C6. When the comment fetch returns the empty list, the handler raises
    the 404 exception in the world the fetch left: no payload is returned
    and the analyzer is not called. *)
Theorem no_comments_is_404
    (fuel : nat) (video_id : string) (w w1 w2 : world W)
    (info : option VideoInfo) :
  obtener_info_video lib API_KEY video_id w = (Val info, w1) ->
  obtener_comentarios_youtube lib API_KEY fuel video_id w1 = (Val [], w2) ->
  analizar_video lib API_KEY fuel video_id w =
    (Exc (HTTPException 404
       "No se encontraron comentarios para este video."), w2).
Proof.
  intros Hinfo Hfetch.
  rewrite (analizar_video_unfold lib API_KEY fuel video_id w info w1 Hinfo).
  rewrite Hfetch. reflexivity.
Qed.


(** C8. With the key configured, when a library call raises during the
    comment fetch, [obtener_comentarios_youtube] raises the 500 exception
    whose detail ends with the message of that exception; the failed call
    is the last one made (only the [print] follows it), and the handler
    ends with the same exception. *)
Theorem comment_fetch_error_is_500
    (fuel : nat) (video_id : string) (w w1 w2 : world W)
    (info : option VideoInfo) (r : outcome exn (list string))
    (evs : list event) (c : api_call) (m : string) :
  truthy_str API_KEY = true ->
  obtener_info_video lib API_KEY video_id w = (Val info, w1) ->
  obtener_comentarios_youtube lib API_KEY fuel video_id w1 = (r, w2) ->
  log w2 = log w1 ++ evs ->
  In (Called c (Some m)) evs ->
  r = Exc (HTTPException 500
             ("Error al contactar la API de YouTube: " +:+ m))
  /\ (exists pre,
        evs = pre ++
              [Called c (Some m);
               Printed ("Error al llamar a la API de YouTube: " +:+ m)]
        /\ quiet pre)
  /\ analizar_video lib API_KEY fuel video_id w =
       (Exc (HTTPException 500
               ("Error al contactar la API de YouTube: " +:+ m)), w2).
Proof.
  intros Hkey Hinfo Hfetch Hlog Hin.
  destruct (obtener_comentarios_youtube_raised lib API_KEY fuel video_id
              w1 w2 r evs c m Hkey Hfetch Hlog Hin) as (-> & Hpre).
  split; [reflexivity|]. split; [exact Hpre|].
  rewrite (analizar_video_unfold lib API_KEY fuel video_id w info w1 Hinfo).
  rewrite Hfetch. reflexivity.
Qed.

(** C10. In every payload the handler returns, [total_comentarios] is the
    length of [lista_comentarios] and the sum of the three counts of
    [sentimientos]. *)
Theorem payload_is_consistent
    (fuel : nat) (video_id : string) (w w' : world W) (resp : Respuesta) :
  analizar_video lib API_KEY fuel video_id w = (Val resp, w') ->
  total_comentarios resp = len (lista_comentarios resp)
  /\ exists p n g,
       sentimientos resp !! "Positivo" = Some p
       /\ sentimientos resp !! "Neutral" = Some n
       /\ sentimientos resp !! "Negativo" = Some g
       /\ total_comentarios resp = p + n + g.
Proof.
  destruct (obtener_info_video_cases lib API_KEY video_id w)
    as (info & w1 & evs & Hinfo & _).
  rewrite (analizar_video_unfold lib API_KEY fuel video_id w info w1 Hinfo).
  destruct (obtener_comentarios_youtube lib API_KEY fuel video_id w1)
    as [[[|c cs]|e|] w2]; try discriminate.
  destruct (analizar_sentimientos_vader_run lib (c :: cs) w2)
    as (p & n & g & -> & _ & _ & _ & Hs).
  intros [= <- <-]. cbn [total_comentarios lista_comentarios sentimientos].
  split; [unfold len; cbn [map length]; by rewrite length_map|].
  destruct (tres_lookup p n g) as (Hp & Hn & Hg).
  exists p, n, g. repeat split; try assumption. lia.
Qed.
End FetchClaims.

Section PagingClaims.
Context (pages : nat -> reply Thread.response)
        (video : reply Video.response) (scorer : string -> scores).

(** C9, amended. For every sequence of replies, with the key configured: the
    comment fetch stops exactly at the first reply that ends the loop (the
    request raises, an item lacks the path to [textDisplay], the page names
    no next page, or the comments reach 100): if reply [k] is the first such
    reply, then with fuel for more than [k] iterations the fetch terminates,
    with a list or an exception, after exactly [k + 1] page requests; and as
    long as no reply ends the loop it goes on, one request per reply, so
    pages that bring no comment and name a next page do not stop it. *)
Theorem paging_stops_at_first_stopping_page
    (API_KEY : option string) (video_id : string) :
  truthy_str API_KEY = true ->
  (forall k fuel,
     ends_at pages k = true ->
     (forall j, (j < k)%nat -> ends_at pages j = false) ->
     (k < fuel)%nat ->
     exists r w',
       obtener_comentarios_youtube (scripted pages video scorer) API_KEY
         fuel video_id (start 0%nat) = (r, w')
       /\ r <> OutOfFuel
       /\ ext w' = S k)
  /\ (forall fuel,
        (forall j, (j < fuel)%nat -> ends_at pages j = false) ->
        exists w',
          obtener_comentarios_youtube (scripted pages video scorer) API_KEY
            fuel video_id (start 0%nat) = (OutOfFuel, w')
          /\ ext w' = fuel).
Proof.
  intros Hkey.
  assert (Hrun : forall fuel,
    obtener_comentarios_youtube (scripted pages video scorer) API_KEY
      fuel video_id (start 0%nat) =
    match paginar (scripted pages video scorer) fuel video_id [] None
            {| ext := 0%nat;
               log := [] ++ [Called (Build "youtube" "v3" API_KEY) None] |}
    with
    | (Val cs, w') => (Val (take 100 cs), w')
    | (Exc e, w') =>
        (Exc (HTTPException 500
                ("Error al contactar la API de YouTube: " +:+ str e)),
         record (Printed ("Error al llamar a la API de YouTube: " +:+ str e))
                w')
    | (OutOfFuel, w') => (OutOfFuel, w')
    end).
  { intros fuel. unfold obtener_comentarios_youtube. rewrite Hkey.
    cbn [negb]. unfold try_except, bind at 1, build_youtube, call.
    cbn [build scripted start ext log]. unfold bind at 1.
    destruct (paginar _ fuel video_id [] None _) as [[cs|e|] w'];
      reflexivity. }
  set (w1 := {| ext := 0%nat;
                log := [] ++ [Called (Build "youtube" "v3" API_KEY) None] |})
    in Hrun.
  split.
  - intros k fuel Hend Hgo Hfuel. rewrite Hrun.
    destruct (paginar_scripted_exact pages video scorer video_id
                k [] None w1 fuel) as (Ha & _); [cbn; lia | exact Hgo |].
    destruct (Ha Hfuel Hend) as (r & w' & -> & Hr & Hext).
    cbn [ext w1] in Hext.
    destruct r as [cs|e|]; [| |contradiction].
    + eexists _, _. split; [reflexivity|]. split; [discriminate | exact Hext].
    + eexists _, _. split; [reflexivity|]. split; [discriminate | exact Hext].
  - intros fuel Hgo. rewrite Hrun.
    destruct (paginar_scripted_exact pages video scorer video_id
                fuel [] None w1 fuel) as (_ & Hb); [cbn; lia | exact Hgo |].
    destruct (Hb eq_refl) as (w' & -> & Hext).
    exists w'. split; [reflexivity | exact Hext].
Qed.
End PagingClaims.

Lemma paging_stops_at_first_stopping_page_witness :
  (exists r w',
     obtener_comentarios_youtube
       (scripted (pages_of (fun _ => comments_demo) toks_demo)
                 (Return video_demo) scorer_demo)
       (Some "AIza") 2 "dQw4w9WgXcQ" (start 0%nat) = (r, w')
     /\ r <> OutOfFuel /\ ext w' = 2%nat)
  /\ (exists w',
        obtener_comentarios_youtube
          (scripted (fun _ => Return (page [] (Some "CDIQAA")))
                    (Return video_demo) scorer_demo)
          (Some "AIza") 3 "dQw4w9WgXcQ" (start 0%nat) = (OutOfFuel, w')
        /\ ext w' = 3%nat).
Proof.
  split.
  - apply (proj1 (paging_stops_at_first_stopping_page
             (pages_of (fun _ => comments_demo) toks_demo)
             (Return video_demo) scorer_demo
             (Some "AIza") "dQw4w9WgXcQ" eq_refl) 1%nat 2%nat).
    + reflexivity.
    + intros j Hj. assert (j = 0%nat) as -> by lia. reflexivity.
    + lia.
  - apply (proj2 (paging_stops_at_first_stopping_page
             (fun _ => Return (page [] (Some "CDIQAA")))
             (Return video_demo) scorer_demo
             (Some "AIza") "dQw4w9WgXcQ" eq_refl) 3%nat).
    intros j Hj.
    destruct j as [|[|[|j]]]; [reflexivity | reflexivity | reflexivity | lia].
Defined.

(** C9, as stated, fails: on the API whose pages are all empty and all name
    a next page, no amount of fuel lets the comment fetch terminate. *)
Lemma empty_pages_never_stop :
  ~ exists fuel : nat,
      fst (obtener_comentarios_youtube lib_sin_fin (Some "AIza") fuel
             "dQw4w9WgXcQ" (start 0%nat)) <> OutOfFuel.
Proof.
  intros (fuel & H). apply H. clear H.
  unfold obtener_comentarios_youtube. cbn [truthy_str negb].
  unfold try_except, bind at 1, build_youtube, call.
  cbn [build lib_sin_fin scripted start ext log].
  unfold bind.
  pose proof (paginar_sin_fin "dQw4w9WgXcQ" fuel None
    {| ext := 0%nat;
       log := [] ++ [Called (Build "youtube" "v3" (Some "AIza")) None] |})
    as Hloop.
  destruct (paginar lib_sin_fin fuel "dQw4w9WgXcQ" [] None _) as [r w'].
  cbn in Hloop. subst r. reflexivity.
Qed.

(** ** The theorems at concrete inputs *)

Lemma fetch_returns_at_most_100_witness : len (replicate 100 "hola") <= 100.
Proof.
  apply (fetch_returns_at_most_100 lib_dos_paginas (Some "AIza") 2
           "dQw4w9WgXcQ" (start 0%nat)
           (snd (obtener_comentarios_youtube lib_dos_paginas (Some "AIza") 2
                   "dQw4w9WgXcQ" (start 0%nat)))).
  vm_compute. reflexivity.
Defined.

Lemma missing_key_is_503_witness :
  analizar_video lib_demo None 1 "dQw4w9WgXcQ" (start 0%nat) =
    (Exc (HTTPException 503
       "Servicio no disponible: Falta configuración de API Key en el servidor."),
     start 0%nat).
Proof.
  apply (missing_key_is_503 lib_demo None 1 "dQw4w9WgXcQ" (start 0%nat)).
  reflexivity.
Defined.

Lemma no_comments_is_404_witness :
  analizar_video lib_sin_comentarios (Some "AIza") 1 "dQw4w9WgXcQ"
    (start 0%nat) =
  (Exc (HTTPException 404 "No se encontraron comentarios para este video."),
   snd (obtener_comentarios_youtube lib_sin_comentarios (Some "AIza") 1
          "dQw4w9WgXcQ"
          (snd (obtener_info_video lib_sin_comentarios (Some "AIza")
                  "dQw4w9WgXcQ" (start 0%nat))))).
Proof.
  apply (no_comments_is_404 lib_sin_comentarios (Some "AIza") 1
           "dQw4w9WgXcQ" (start 0%nat)
           (snd (obtener_info_video lib_sin_comentarios (Some "AIza")
                   "dQw4w9WgXcQ" (start 0%nat)))
           _ None).
  - vm_compute. reflexivity.
  - vm_compute. reflexivity.
Defined.

Lemma comment_fetch_error_is_500_witness :
  analizar_video lib_caido (Some "AIza") 1 "dQw4w9WgXcQ" (start 0%nat) =
    (Exc (HTTPException 500
            "Error al contactar la API de YouTube: quotaExceeded"),
     snd (analizar_video lib_caido (Some "AIza") 1 "dQw4w9WgXcQ"
            (start 0%nat))).
Proof.
  refine (proj2 (proj2 (comment_fetch_error_is_500 lib_caido (Some "AIza") 1
    "dQw4w9WgXcQ" (start 0%nat)
    (snd (obtener_info_video lib_caido (Some "AIza") "dQw4w9WgXcQ"
            (start 0%nat)))
    (snd (analizar_video lib_caido (Some "AIza") 1 "dQw4w9WgXcQ"
            (start 0%nat)))
    None
    (Exc (HTTPException 500
            "Error al contactar la API de YouTube: quotaExceeded"))
    [Called (Build "youtube" "v3" (Some "AIza")) None;
     Called (CommentThreadsList request_demo) (Some "quotaExceeded");
     Printed "Error al llamar a la API de YouTube: quotaExceeded"]
    (CommentThreadsList request_demo) "quotaExceeded" _ _ _ _ _))).
  - reflexivity.
  - vm_compute. reflexivity.
  - vm_compute. reflexivity.
  - vm_compute. reflexivity.
  - right. left. reflexivity.
Defined.

Lemma payload_is_consistent_witness :
  total_comentarios resp_demo = len (lista_comentarios resp_demo).
Proof.
  apply (payload_is_consistent lib_demo (Some "AIza") 1 "dQw4w9WgXcQ"
           (start 0%nat)
           (snd (analizar_video lib_demo (Some "AIza") 1 "dQw4w9WgXcQ"
                   (start 0%nat)))
           resp_demo).
  vm_compute. reflexivity.
Defined.

(** * Further properties of the code *)

(** ** The classifier *)

Lemma cuenta_app label cl1 cl2 :
  cuenta label (cl1 ++ cl2) = cuenta label cl1 + cuenta label cl2.
Proof. unfold cuenta, len. rewrite filter_app, length_app. lia. Qed.

Section ClassifierExtras.
Context {W : Type} (lib : Service W).

(** X1. The classifier asks the analyzer for the scores of each comment
    exactly once, in the order of the input, makes no other call, prints
    nothing and leaves the state of the outside world as it was. *)
Theorem classifier_scores_each_comment_once
    (lista : list string) (w : world W) :
  exists result,
    analizar_sentimientos_vader lib lista w =
      (Val result,
       {| ext := ext w;
          log := log w ++
                 map (fun c => Called (PolarityScores c) None) lista |}).
Proof.
  destruct (analizar_sentimientos_vader_run lib lista w)
    as (p & n & g & H & _).
  eexists. exact H.
Qed.

(** X2. Classifying a concatenation gives the concatenation of the two
    classified lists, and each of the three counts is the sum of the counts
    of the two parts. *)
Theorem classifier_distributes_over_append
    (l1 l2 : list string) (w w1 w2 : world W) :
  exists p1 n1 g1 cl1 wa p2 n2 g2 cl2 wb wc,
    analizar_sentimientos_vader lib l1 w1 = (Val (tres p1 n1 g1, cl1), wa)
    /\ analizar_sentimientos_vader lib l2 w2 = (Val (tres p2 n2 g2, cl2), wb)
    /\ analizar_sentimientos_vader lib (l1 ++ l2) w =
         (Val (tres (p1 + p2) (n1 + n2) (g1 + g2), cl1 ++ cl2), wc).
Proof.
  destruct (analizar_sentimientos_vader_run lib l1 w1)
    as (p1 & n1 & g1 & H1 & Hp1 & Hn1 & Hg1 & _).
  destruct (analizar_sentimientos_vader_run lib l2 w2)
    as (p2 & n2 & g2 & H2 & Hp2 & Hn2 & Hg2 & _).
  destruct (analizar_sentimientos_vader_run lib (l1 ++ l2) w)
    as (p & n & g & H & Hp & Hn & Hg & _).
  rewrite map_app, cuenta_app in Hp, Hn, Hg.
  exists p1, n1, g1, (map (clasificado lib) l1). eexists.
  exists p2, n2, g2, (map (clasificado lib) l2). eexists. eexists.
  split; [exact H1|]. split; [exact H2|].
  rewrite H, map_app. subst. reflexivity.
Qed.

(** X3. Every element of the classified list carries one of the three
    labels that are the keys of the counts dict. *)
Theorem classifier_labels_are_the_three_keys
    (lista : list string) (w w' : world W) (counts : gmap string Z)
    (classified : list ClassifiedComment) (x : ClassifiedComment) :
  analizar_sentimientos_vader lib lista w = (Val (counts, classified), w') ->
  In x classified ->
  In (sentimiento x) ["Positivo"; "Neutral"; "Negativo"]
  /\ is_Some (counts !! sentimiento x).
Proof.
  intros Hrun Hin.
  destruct (analizar_sentimientos_vader_run lib lista w)
    as (p & n & g & H & _).
  rewrite H in Hrun. injection Hrun as <- <- _.
  apply in_map_iff in Hin as (c & <- & _).
  destruct (tres_lookup p n g) as (Hp & Hn & Hg).
  cbn [sentimiento clasificado]. unfold label_of_score.
  destruct (0.05 <=? _)%float; [|destruct (_ <=? -0.05)%float].
  - split; [cbn; auto | rewrite Hp; eauto].
  - split; [cbn; auto | rewrite Hg; eauto].
  - split; [cbn; auto | rewrite Hn; eauto].
Qed.
End ClassifierExtras.

Lemma classifier_labels_are_the_three_keys_witness :
  In "Negativo" ["Positivo"; "Neutral"; "Negativo"].
Proof.
  refine (proj1 (classifier_labels_are_the_three_keys lib_demo comments_demo
    (start 0%nat)
    {| ext := 0%nat; log := map scored comments_demo |}
    (tres 1 1 1) (map (clasificado lib_demo) comments_demo)
    {| comentario := "I hate this."; sentimiento := "Negativo" |} _ _)).
  - vm_compute. reflexivity.
  - right. left. vm_compute. reflexivity.
Defined.

(** ** The comment fetcher on well-formed pages *)

Lemma gathered_S texts j k :
  gathered texts j (S k) = texts j ++ gathered texts (S j) k.
Proof. reflexivity. Qed.

Lemma requests_made_S video_id toks j k :
  requests_made video_id toks j (S k) =
  Called (CommentThreadsList (page_request video_id (token_sent toks j))) None
    :: requests_made video_id toks (S j) k.
Proof. reflexivity. Qed.

(** Reading the items of a well-formed page adds its comments in order. *)
Lemma for_each_append_threads {W} ts : forall acc (w : world W),
  for_each append_comment acc (map thread ts) w = (Val (acc ++ ts), w).
Proof.
  induction ts as [|t ts IH]; intros acc w; cbn [map for_each].
  - cbn. by rewrite app_nil_r.
  - unfold bind at 1. cbn. rewrite IH. by rewrite <- app_assoc.
Qed.

Section PagesOf.
Context (texts : nat -> list string) (toks : nat -> option string)
        (video : reply Video.response) (scorer : string -> scores).

Local Abbreviation lib := (scripted (pages_of texts toks) video scorer).

(** One iteration on well-formed pages. *)
Lemma paginar_pages_of_step fuel video_id acc tok (w : world nat) :
  len acc < 100 ->
  paginar lib (S fuel) video_id acc tok w =
    let w1 := {| ext := S (ext w);
                 log := log w ++
                   [Called (CommentThreadsList (page_request video_id tok))
                      None] |} in
    if negb (truthy_str (toks (ext w)))
    then (Val (acc ++ texts (ext w)), w1)
    else paginar lib fuel video_id (acc ++ texts (ext w)) (toks (ext w)) w1.
Proof.
  intros Hlt. cbn [paginar].
  destruct (Z.ltb_spec (len acc) 100) as [_|]; [|lia].
  unfold bind at 1, call. cbn [commentThreads_list scripted pages_of].
  unfold bind at 1. cbn [Thread.items Thread.nextPageToken page get].
  rewrite for_each_append_threads.
  destruct (negb _); reflexivity.
Qed.

(** The loop from the page it is at up to the first page that ends it. *)
Lemma paginar_pages_of video_id : forall d acc fuel (w : world nat),
  (length acc < 100)%nat ->
  (forall i, (i < d)%nat ->
     truthy_str (toks (ext w + i)%nat) = true /\
     (length (acc ++ gathered texts (ext w) (S i)) < 100)%nat) ->
  truthy_str (toks (ext w + d)%nat) = false \/
    (100 <= length (acc ++ gathered texts (ext w) (S d)))%nat ->
  (d < fuel)%nat ->
  paginar lib fuel video_id acc (token_sent toks (ext w)) w =
    (Val (acc ++ gathered texts (ext w) (S d)),
     {| ext := (ext w + S d)%nat;
        log := log w ++ requests_made video_id toks (ext w) (S d) |}).
Proof.
  induction d as [|d IH]; intros acc fuel w Hacc Hgo Hstop Hfuel;
    (destruct fuel as [|fuel]; [lia|]);
    rewrite paginar_pages_of_step by (unfold len; lia); cbn zeta.
  - rewrite Nat.add_0_r in Hstop. rewrite Nat.add_1_r.
    unfold gathered in *. cbn [seq map concat] in *.
    rewrite app_nil_r in *.
    destruct (truthy_str (toks (ext w))) eqn:Htok; cbn [negb];
      [|reflexivity].
    destruct Hstop as [|Hstop]; [discriminate|].
    apply paginar_full. unfold len. lia.
  - destruct (Hgo 0%nat) as (Htok & Hlen); [lia|].
    rewrite Nat.add_0_r in Htok. rewrite Htok. cbn [negb].
    unfold gathered in Hlen. cbn [seq map concat] in Hlen.
    rewrite app_nil_r in Hlen.
    set (w1 := {| ext := S (ext w); log := _ |}).
    change (toks (ext w)) with (token_sent toks (ext w1)).
    rewrite (IH (acc ++ texts (ext w)) fuel w1); cbn [ext log w1].
    + rewrite (gathered_S texts (ext w) (S d)).
      rewrite (requests_made_S video_id toks (ext w) (S d)).
      rewrite <- !app_assoc. cbn [app].
      replace (S (ext w) + S d)%nat with (ext w + S (S d))%nat by lia.
      reflexivity.
    + exact Hlen.
    + intros i Hi. destruct (Hgo (S i)) as (Ht & Hl); [lia|].
      rewrite (gathered_S texts (ext w) (S i)), app_assoc in Hl.
      replace (S (ext w) + i)%nat with (ext w + S i)%nat by lia.
      by split.
    + replace (S (ext w) + d)%nat with (ext w + S d)%nat by lia.
      rewrite (gathered_S texts (ext w) (S d)), app_assoc in Hstop.
      exact Hstop.
    + lia.
Qed.

(** The fetch on well-formed pages, with its world. *)
Lemma obtener_comentarios_youtube_pages_of API_KEY fuel video_id k :
  truthy_str API_KEY = true ->
  (forall i, (i < k)%nat ->
     truthy_str (toks i) = true /\
     (length (gathered texts 0 (S i)) < 100)%nat) ->
  truthy_str (toks k) = false \/
    (100 <= length (gathered texts 0 (S k)))%nat ->
  (k < fuel)%nat ->
  obtener_comentarios_youtube lib API_KEY fuel video_id (start 0%nat) =
    (Val (take 100 (gathered texts 0 (S k))),
     {| ext := S k;
        log := Called (Build "youtube" "v3" API_KEY) None
                 :: requests_made video_id toks 0 (S k) |}).
Proof.
  intros Hkey Hgo Hstop Hfuel.
  unfold obtener_comentarios_youtube. rewrite Hkey. cbn [negb].
  unfold try_except, bind at 1, build_youtube, call.
  cbn [build scripted start ext log app].
  set (w1 := {| ext := 0%nat; log := _ |}).
  unfold bind.
  change (@None string) with (token_sent toks (ext w1)).
  rewrite (paginar_pages_of video_id k [] fuel w1); cbn [ext log w1 app].
  - reflexivity.
  - cbn. lia.
  - exact Hgo.
  - exact Hstop.
  - exact Hfuel.
Qed.

(** X5. On a sequence of well-formed pages, if page [k] is the first that
    carries no next-page token or brings the comments received to 100, the
    fetch returns the first 100 comments of pages 0..k, in page order, after
    exactly [k + 1] page requests. *)
Theorem fetch_returns_first_100_in_page_order
    (API_KEY : option string) (fuel : nat) (video_id : string) (k : nat) :
  truthy_str API_KEY = true ->
  (forall i, (i < k)%nat ->
     truthy_str (toks i) = true /\
     (length (gathered texts 0 (S i)) < 100)%nat) ->
  truthy_str (toks k) = false \/
    (100 <= length (gathered texts 0 (S k)))%nat ->
  (k < fuel)%nat ->
  exists w',
    obtener_comentarios_youtube lib API_KEY fuel video_id (start 0%nat) =
      (Val (take 100 (gathered texts 0 (S k))), w')
    /\ ext w' = S k.
Proof.
  intros Hkey Hgo Hstop Hfuel.
  rewrite (obtener_comentarios_youtube_pages_of API_KEY fuel video_id k)
    by assumption.
  eexists. split; reflexivity.
Qed.

(** X6. In the same run the log holds the [build] call followed by the page
    requests only: each is for the requested video with [maxResults] 100,
    the first carries no page token and every later one carries the
    next-page token of the page before it; nothing is printed. *)
Theorem fetch_threads_the_page_token
    (API_KEY : option string) (fuel : nat) (video_id : string) (k : nat) :
  truthy_str API_KEY = true ->
  (forall i, (i < k)%nat ->
     truthy_str (toks i) = true /\
     (length (gathered texts 0 (S i)) < 100)%nat) ->
  truthy_str (toks k) = false \/
    (100 <= length (gathered texts 0 (S k)))%nat ->
  (k < fuel)%nat ->
  log (snd (obtener_comentarios_youtube lib API_KEY fuel video_id
              (start 0%nat))) =
    Called (Build "youtube" "v3" API_KEY) None
      :: map (fun i =>
                Called (CommentThreadsList
                  {| Thread.part := "snippet";
                     Thread.videoId := video_id;
                     Thread.maxResults := 100;
                     Thread.textFormat := "plainText";
                     Thread.pageToken :=
                       match i with O => None | S i' => toks i' end |})
                  None)
             (seq 0 (S k)).
Proof.
  intros Hkey Hgo Hstop Hfuel.
  rewrite (obtener_comentarios_youtube_pages_of API_KEY fuel video_id k)
    by assumption.
  reflexivity.
Qed.
End PagesOf.

Lemma fetch_returns_first_100_in_page_order_witness :
  exists w',
    obtener_comentarios_youtube
      (scripted (pages_of (fun _ => comments_demo) toks_demo)
                (Return video_demo) scorer_demo)
      (Some "AIza") 2 "dQw4w9WgXcQ" (start 0%nat) =
      (Val (take 100 (gathered (fun _ => comments_demo) 0 2)), w')
    /\ ext w' = 2%nat.
Proof.
  apply (fetch_returns_first_100_in_page_order (fun _ => comments_demo)
           toks_demo (Return video_demo) scorer_demo
           (Some "AIza") 2 "dQw4w9WgXcQ" 1).
  - reflexivity.
  - intros i Hi. assert (i = 0%nat) as -> by lia.
    split; [reflexivity | cbn; lia].
  - left. reflexivity.
  - lia.
Defined.

Lemma fetch_threads_the_page_token_witness :
  log (snd (obtener_comentarios_youtube
              (scripted (pages_of (fun _ => comments_demo) toks_demo)
                        (Return video_demo) scorer_demo)
              (Some "AIza") 2 "dQw4w9WgXcQ" (start 0%nat))) =
    [Called (Build "youtube" "v3" (Some "AIza")) None;
     Called (CommentThreadsList (page_request "dQw4w9WgXcQ" None)) None;
     Called (CommentThreadsList
               (page_request "dQw4w9WgXcQ" (Some "CDIQAA"))) None].
Proof.
  apply (fetch_threads_the_page_token (fun _ => comments_demo)
           toks_demo (Return video_demo) scorer_demo
           (Some "AIza") 2 "dQw4w9WgXcQ" 1).
  - reflexivity.
  - intros i Hi. assert (i = 0%nat) as -> by lia.
    split; [reflexivity | cbn; lia].
  - left. reflexivity.
  - lia.
Defined.

(** ** A page with a malformed item *)

Section Malformed.
Context {W : Type} (lib : Service W) (API_KEY : option string).

Lemma textDisplay_of_missing_key item key (w : world W) :
  missing_key item = Some key ->
  textDisplay_of item w = (Exc (KeyError key), w).
Proof.
  destruct item as [[[[[[[[s|]]|]]|]]|]]; cbn; intros [= <-]; reflexivity.
Qed.

Lemma textDisplay_of_present item (w : world W) :
  missing_key item = None ->
  exists s, textDisplay_of item w = (Val s, w).
Proof.
  destruct item as [[[[[[[[s|]]|]]|]]|]]; cbn; try discriminate.
  intros _. by exists s.
Qed.

(** The first item that misses a key ends the reading of the page with the
    [KeyError] of that key. *)
Lemma for_each_append_comment_missing_key good bad rest key :
  Forall (fun item => missing_key item = None) good ->
  missing_key bad = Some key ->
  forall acc (w : world W),
    for_each append_comment acc (good ++ bad :: rest) w =
      (Exc (KeyError key), w).
Proof.
  intros Hgood Hbad. induction Hgood as [|item good Hitem _ IH];
    intros acc w; cbn [app for_each]; unfold bind at 1, append_comment at 1,
    bind at 1.
  - by rewrite (textDisplay_of_missing_key bad key w Hbad).
  - destruct (textDisplay_of_present item w Hitem) as (s & ->).
    cbn [ret]. apply IH.
Qed.

(** X7. With the key configured, when the first page holds an item that
    lacks one of the keys on the path to [textDisplay], the fetch raises the
    500 exception whose detail quotes that key; the comments read before it
    are not returned and no further page is requested. *)
Theorem malformed_item_is_500
    (fuel : nat) (video_id : string) (w : world W) (x0 x1 : W)
    (p : Thread.response) (good rest : list Thread.item) (bad : Thread.item)
    (key : string) :
  truthy_str API_KEY = true ->
  build lib "youtube" "v3" API_KEY (ext w) = (Return tt, x0) ->
  commentThreads_list lib
    {| Thread.part := "snippet";
       Thread.videoId := video_id;
       Thread.maxResults := 100;
       Thread.textFormat := "plainText";
       Thread.pageToken := None |} x0 = (Return p, x1) ->
  Thread.items p = Some (good ++ bad :: rest) ->
  Forall (fun item => missing_key item = None) good ->
  missing_key bad = Some key ->
  (0 < fuel)%nat ->
  exists w',
    obtener_comentarios_youtube lib API_KEY fuel video_id w =
      (Exc (HTTPException 500
              ("Error al contactar la API de YouTube: " +:+
               ("'" +:+ key +:+ "'"))), w')
    /\ ext w' = x1.
Proof.
  intros Hkey Hbuild Hlist Hitems Hgood Hbad Hfuel.
  destruct fuel as [|fuel]; [lia|].
  unfold obtener_comentarios_youtube. rewrite Hkey. cbn [negb].
  unfold try_except, bind at 1, build_youtube, call. rewrite Hbuild.
  unfold bind at 1. cbn [paginar].
  change (len [] <? 100) with true. cbn iota.
  unfold bind at 1, call. cbn [ext]. rewrite Hlist.
  unfold bind at 1. rewrite Hitems. cbn [get].
  rewrite (for_each_append_comment_missing_key good bad rest key Hgood Hbad).
  unfold bind, print, raise, record. cbn [str ext log].
  eexists. split; reflexivity.
Qed.
End Malformed.

Lemma malformed_item_is_500_witness :
  exists w',
    obtener_comentarios_youtube lib_roto (Some "AIza") 1 "dQw4w9WgXcQ"
      (start 0%nat) =
      (Exc (HTTPException 500
              "Error al contactar la API de YouTube: 'textDisplay'"), w')
    /\ ext w' = 1%nat.
Proof.
  apply (malformed_item_is_500 lib_roto (Some "AIza") 1 "dQw4w9WgXcQ"
           (start 0%nat) 0%nat 1%nat page_rota [thread "hola"]
           [thread "adios"]
           {| Thread.snippet_ := Some {| Thread.topLevelComment := Some
                {| Thread.snippet := Some
                     {| Thread.textDisplay := None |} |} |} |}
           "textDisplay").
  - reflexivity.
  - reflexivity.
  - reflexivity.
  - reflexivity.
  - repeat constructor.
  - reflexivity.
  - lia.
Defined.

(** ** The handler *)

Section HandlerExtras.
Context {W : Type} (lib : Service W) (API_KEY : option string).



(** X9. A payload is returned only with the key configured; it echoes the
    video id, its [total_comentarios] is between 1 and 100, and its
    [video_info] is what the metadata fetcher returned. *)
Theorem payload_has_1_to_100_comments
    (fuel : nat) (vid : string) (w w' : world W) (resp : Respuesta) :
  analizar_video lib API_KEY fuel vid w = (Val resp, w') ->
  truthy_str API_KEY = true
  /\ video_id resp = vid
  /\ 1 <= total_comentarios resp <= 100
  /\ video_info resp =
       match obtener_info_video lib API_KEY vid w with
       | (Val info, _) => info
       | _ => None
       end.
Proof.
  destruct (obtener_info_video_cases lib API_KEY vid w)
    as (info & w1 & evs & Hinfo & _).
  rewrite (analizar_video_unfold lib API_KEY fuel vid w info w1 Hinfo).
  rewrite Hinfo.
  destruct (obtener_comentarios_youtube lib API_KEY fuel vid w1)
    as [[[|c cs]|e1|] w2] eqn:Hfetch; try discriminate.
  destruct (analizar_sentimientos_vader_run lib (c :: cs) w2)
    as (p & n & g & -> & _).
  intros [= <- _]. cbn [video_id total_comentarios video_info].
  split.
  { unfold obtener_comentarios_youtube in Hfetch.
    destruct (truthy_str API_KEY); [reflexivity | discriminate]. }
  split; [reflexivity|]. split; [|reflexivity].
  apply obtener_comentarios_youtube_val in Hfetch as (all & Hcs).
  assert (Hlen : (length (c :: cs) <= 100)%nat).
  { rewrite Hcs, length_take. lia. }
  unfold len. cbn [length] in *. lia.
Qed.
End HandlerExtras.


Lemma payload_has_1_to_100_comments_witness :
  1 <= total_comentarios resp_demo <= 100.
Proof.
  refine (proj1 (proj2 (proj2 (payload_has_1_to_100_comments lib_demo
    (Some "AIza") 1 "dQw4w9WgXcQ" (start 0%nat)
    (snd (analizar_video lib_demo (Some "AIza") 1 "dQw4w9WgXcQ"
            (start 0%nat)))
    resp_demo _)))).
  vm_compute. reflexivity.
Defined.

(** ** The metadata fetcher, further *)

Section MetadataExtras.
Context {W : Type} (lib : Service W) (API_KEY : option string).

(** X10. With the key configured, when [build] succeeds and the reply of
    [videos().list] holds at least one item whose first item has a snippet,
    the fetcher returns the record read from that first snippet, with the
    default text for each field the snippet lacks; the other items are not
    looked at, the two calls are the only log entries and nothing is
    printed. *)
Theorem metadata_record_comes_from_first_item
    (video_id : string) (w : world W) (x0 x1 : W) (resp : Video.response)
    (item : Video.item) (rest : list Video.item) (snip : Video.snippet) :
  truthy_str API_KEY = true ->
  build lib "youtube" "v3" API_KEY (ext w) = (Return tt, x0) ->
  videos_list lib {| Video.part := "snippet"; Video.id := video_id |} x0 =
    (Return resp, x1) ->
  Video.items resp = Some (item :: rest) ->
  Video.snippet_ item = Some snip ->
  obtener_info_video lib API_KEY video_id w =
    (Val (Some {|
       title := match Video.title snip with
                | Some t => t
                | None => "Título no disponible"
                end;
       channel := match Video.channelTitle snip with
                  | Some c => c
                  | None => "Canal no disponible"
                  end;
       thumbnail := match Video.thumbnails_ snip with
                    | Some {| Video.medium :=
                                Some {| Video.url := Some u |} |} => u
                    | _ => ""
                    end;
       published_at := match Video.publishedAt snip with
                       | Some d => d
                       | None => ""
                       end |}),
     {| ext := x1;
        log := log w ++
          [Called (Build "youtube" "v3" API_KEY) None;
           Called (VideosList
                     {| Video.part := "snippet"; Video.id := video_id |})
                  None] |}).
Proof.
  intros Hkey Hbuild Hlist Hitems Hsnip.
  unfold obtener_info_video. rewrite Hkey. cbn [negb].
  unfold try_except, bind at 1, build_youtube, call. rewrite Hbuild.
  unfold bind at 1, call. cbn [ext]. rewrite Hlist, Hitems.
  cbn [truthy_list negb]. unfold bind, getitem, first_item, ret.
  rewrite Hsnip. cbn [log]. rewrite <- app_assoc. cbn [app].
  destruct snip as [t c [[[[[u|]]|]]|] d]; reflexivity.
Qed.

(** X11. Whatever the service does, the metadata fetcher never calls the
    comment API or the analyzer and adds at most three entries to the log;
    when it printed a line it returns None. *)
Theorem metadata_fetcher_footprint (video_id : string) (w : world W) :
  exists info w1 evs,
    obtener_info_video lib API_KEY video_id w = (Val info, w1)
    /\ log w1 = log w ++ evs
    /\ Forall metadata_event evs
    /\ (length evs <= 3)%nat
    /\ ((exists line, In (Printed line) evs) -> info = None).
Proof.
  unfold obtener_info_video.
  destruct (truthy_str API_KEY); cbn [negb].
  2:{ exists None, w, []. rewrite app_nil_r.
      repeat split; try constructor. cbn; lia. }
  unfold try_except, bind, build_youtube, call, print, record.
  destruct (build lib "youtube" "v3" API_KEY (ext w)) as [[[]|m] x0];
    cbn [ext log].
  2:{ eexists None, _, _. rewrite <- app_assoc.
      repeat split; try reflexivity; repeat constructor. }
  destruct (videos_list lib _ x0) as [[resp|m] x1]; cbn [ext log].
  2:{ eexists None, _, _. rewrite <- !app_assoc.
      repeat split; try reflexivity; repeat constructor. }
  destruct resp as [[[|[[snip|]] rest]|]]; cbn.
  - eexists None, _, _. rewrite <- !app_assoc.
    repeat split; try reflexivity; repeat constructor.
  - eexists (Some _), _, _. rewrite <- !app_assoc.
    split; [reflexivity|]. split; [reflexivity|].
    split; [repeat constructor|]. split; [cbn; lia|].
    intros (line & [Hin|[Hin|[]]]); discriminate.
  - eexists None, _, _. rewrite <- !app_assoc.
    repeat split; try reflexivity; repeat constructor.
  - eexists None, _, _. rewrite <- !app_assoc.
    repeat split; try reflexivity; repeat constructor.
Qed.
End MetadataExtras.

Lemma metadata_record_comes_from_first_item_witness :
  obtener_info_video lib_video (Some "AIza") "dQw4w9WgXcQ" (start 0%nat) =
    (Val (Some {| title := "Never Gonna Give You Up";
                  channel := "Canal no disponible";
                  thumbnail := "";
                  published_at := "" |}),
     {| ext := 0%nat;
        log := [Called (Build "youtube" "v3" (Some "AIza")) None;
                Called (VideosList
                          {| Video.part := "snippet";
                             Video.id := "dQw4w9WgXcQ" |}) None] |}).
Proof.
  apply (metadata_record_comes_from_first_item lib_video (Some "AIza")
           "dQw4w9WgXcQ" (start 0%nat) 0%nat 0%nat video_demo
           {| Video.snippet_ := Some
                {| Video.title := Some "Never Gonna Give You Up";
                   Video.channelTitle := None;
                   Video.thumbnails_ := None;
                   Video.publishedAt := None |} |}
           []
           {| Video.title := Some "Never Gonna Give You Up";
              Video.channelTitle := None;
              Video.thumbnails_ := None;
              Video.publishedAt := None |});
    reflexivity.
Defined.

(** ** What the comment fetcher asks of the API *)

Section Adds.
Context {W E : Type} (P : event -> Prop).

Lemma adds_silent {A} (r : outcome E A) : adds (W := W) P (fun w => (r, w)).
Proof.
  intros w r' w' [= <- <-]. exists []. rewrite app_nil_r.
  split; [reflexivity | constructor].
Qed.

Lemma adds_bind {A B} (m : M W E A) (k : A -> M W E B) :
  adds P m -> (forall a, adds P (k a)) -> adds P (bind m k).
Proof.
  intros Hm Hk w r w'. unfold bind.
  destruct (m w) as [r1 w1] eqn:E1.
  destruct (Hm _ _ _ E1) as (evs1 & Hl1 & Hs1).
  destruct r1 as [a|e|].
  - intros E2. destruct (Hk a _ _ _ E2) as (evs2 & Hl2 & Hs2).
    exists (evs1 ++ evs2). rewrite Hl2, Hl1, app_assoc.
    split; [reflexivity | by apply Forall_app].
  - intros [= <- <-]. by exists evs1.
  - intros [= <- <-]. by exists evs1.
Qed.

Lemma adds_for_each {A S} (body : S -> A -> M W E S) l :
  (forall s x, adds P (body s x)) -> forall s, adds P (for_each body s l).
Proof.
  intros Hb. induction l as [|x l IH]; intros s; cbn [for_each].
  - apply adds_silent.
  - apply adds_bind; [apply Hb | intros s'; apply IH].
Qed.

Lemma adds_try_except {E' A} (body : M W E' A) (handler : E' -> M W E A) :
  adds P body -> (forall e, adds P (handler e)) ->
  adds P (try_except body handler).
Proof.
  intros Hb Hh w r w'. unfold try_except.
  destruct (body w) as [r1 w1] eqn:Hbody.
  destruct (Hb _ _ _ Hbody) as (evs1 & Hl1 & Hs1).
  destruct r1 as [a|e|].
  - intros [= <- <-]. by exists evs1.
  - intros E2. destruct (Hh e _ _ _ E2) as (evs2 & Hl2 & Hs2).
    exists (evs1 ++ evs2). rewrite Hl2, Hl1, app_assoc.
    split; [reflexivity | by apply Forall_app].
  - intros [= <- <-]. by exists evs1.
Qed.

Lemma adds_print line : P (Printed line) -> adds (W := W) (E := E) P (print line).
Proof.
  intros HP w r w' [= <- <-]. exists [Printed line].
  split; [reflexivity | by repeat constructor].
Qed.
End Adds.

Lemma adds_call {W A} (P : event -> Prop) c (f : W -> reply A * W) :
  (forall raised, P (Called c raised)) -> adds P (call c f).
Proof.
  intros HP w r w'. unfold call. destruct (f (ext w)) as [[a|msg] x];
    intros [= <- <-]; eexists [_]; (split; [reflexivity|]);
    repeat constructor; apply HP.
Qed.

Section FetchEvents.
Context {W : Type} (lib : Service W) (API_KEY : option string).

Lemma adds_getitem {A} P key (field : option A) :
  adds (W := W) P (getitem key field).
Proof. destruct field; apply adds_silent. Qed.

Lemma adds_append_comment P comentarios item :
  adds (W := W) P (append_comment comentarios item).
Proof.
  unfold append_comment, textDisplay_of.
  repeat (apply adds_bind; [try apply adds_getitem | intros ?]).
  - apply adds_getitem.
  - apply adds_silent.
Qed.

Lemma adds_paginar video_id fuel : forall comentarios next_page_token,
  adds (fetch_event API_KEY video_id)
       (paginar lib fuel video_id comentarios next_page_token).
Proof.
  induction fuel as [|fuel IH]; intros comentarios token;
    cbn [paginar]; destruct (len comentarios <? 100);
    try apply adds_silent.
  apply adds_bind; [apply adds_call; intros; by cbn | intros response].
  apply adds_bind.
  - apply adds_for_each, adds_append_comment.
  - intros acc. destruct (negb _); [apply adds_silent | apply IH].
Qed.

(** X12. Whatever the service does and however the run ends, the comment
    fetcher adds to the log only the [build] call with the key, page
    requests for the given video with [part] snippet, [maxResults] 100 and
    [textFormat] plainText, and printed lines: it never asks for another
    video, never calls [videos().list] and never calls the analyzer. *)
Theorem fetch_only_asks_for_the_video
    (fuel : nat) (video_id : string) (w : world W) :
  exists evs,
    log (snd (obtener_comentarios_youtube lib API_KEY fuel video_id w)) =
      log w ++ evs
    /\ Forall (fetch_event API_KEY video_id) evs.
Proof.
  assert (H : adds (fetch_event API_KEY video_id)
                   (obtener_comentarios_youtube lib API_KEY fuel video_id)).
  { unfold obtener_comentarios_youtube. destruct (negb _).
    - apply adds_silent.
    - apply adds_try_except.
      + apply adds_bind; [apply adds_call; intros; by cbn | intros _].
        apply adds_bind; [apply adds_paginar | intros; apply adds_silent].
      + intros e. apply adds_bind; [by apply adds_print | intros _].
        apply adds_silent. }
  destruct (obtener_comentarios_youtube lib API_KEY fuel video_id w)
    as [r w'] eqn:Hrun.
  exact (H w r w' Hrun).
Qed.

(** Enough fuel to reach 100 comments when every iteration that goes on
    adds a comment. *)
Lemma paginar_progress video_id :
  (forall req x p x',
     commentThreads_list lib req x = (Return p, x') ->
     truthy_str (Thread.nextPageToken p) = true ->
     get (Thread.items p) [] <> []) ->
  forall fuel acc tok (w : world W),
    (100 <= length acc + fuel)%nat ->
    fst (paginar lib fuel video_id acc tok w) <> OutOfFuel.
Proof.
  intros Hpages. induction fuel as [|fuel IH]; intros acc tok w Hroom.
  - rewrite paginar_full by (unfold len; lia). discriminate.
  - destruct (Z.lt_ge_cases (len acc) 100) as [Hlt|Hge];
      [|rewrite paginar_full by lia; discriminate].
    cbn [paginar]. destruct (Z.ltb_spec (len acc) 100) as [_|]; [|lia].
    unfold bind at 1, call.
    destruct (commentThreads_list lib _ (ext w)) as [[p|m] x] eqn:Hcall;
      [|discriminate].
    unfold bind at 1.
    match goal with |- context [for_each _ _ _ ?w1] =>
      destruct (for_each_append_comment (get (Thread.items p) []) acc w1)
        as [(acc' & -> & Hlen)|(e & ->)]
    end; [|discriminate].
    destruct (truthy_str (Thread.nextPageToken p)) eqn:Htok; cbn [negb];
      [|discriminate].
    apply IH. specialize (Hpages _ _ _ _ Hcall Htok).
    destruct (get (Thread.items p) []); [contradiction|].
    cbn [length] in Hlen. lia.
Qed.

(** X13. If the API never returns a page that names a next page and holds
    no item, the comment fetch ends, with a list or an exception, within
    100 iterations of its loop. *)
Theorem fetch_ends_within_100_requests
    (video_id : string) (w : world W) :
  (forall req x p x',
     commentThreads_list lib req x = (Return p, x') ->
     truthy_str (Thread.nextPageToken p) = true ->
     get (Thread.items p) [] <> []) ->
  fst (obtener_comentarios_youtube lib API_KEY 100 video_id w) <> OutOfFuel.
Proof.
  intros Hpages. unfold obtener_comentarios_youtube.
  destruct (negb _); [discriminate|].
  unfold try_except, bind at 1, build_youtube, call.
  destruct (build lib "youtube" "v3" API_KEY (ext w)) as [[[]|m] x];
    [|cbn; discriminate].
  set (w1 := {| ext := x; log := _ |}).
  unfold bind.
  pose proof (paginar_progress video_id Hpages 100 [] None w1) as Hloop.
  destruct (paginar lib 100 video_id [] None w1) as [[cs|e|] w2];
    [cbn; discriminate | cbn; discriminate |].
  exfalso. apply Hloop; [cbn; lia | reflexivity].
Qed.
End FetchEvents.

Lemma fetch_ends_within_100_requests_witness :
  fst (obtener_comentarios_youtube lib_dos_paginas (Some "AIza") 100
         "dQw4w9WgXcQ" (start 0%nat)) <> OutOfFuel.
Proof.
  apply (fetch_ends_within_100_requests lib_dos_paginas (Some "AIza")
           "dQw4w9WgXcQ" (start 0%nat)).
  intros req x p x' Hcall _. cbn in Hcall. injection Hcall as <- _.
  cbn. discriminate.
Defined.
